(** * switchbot_floor_lamp_rainy.py: rain forecast to lamp colour

    A shallow embedding of the script that reads today's chance of rain
    from the Tsukumijima weather API, maps it to an RGB colour or a
    colour temperature, drives a SwitchBot floor lamp and posts a summary
    to a Discord webhook.

    Conventions of the model.
    - Python [int] is [Z]; Python [float] is IEEE binary64, computed with
      the executable specification [SpecFloat] (round to nearest even).
    - A Python [str] is a [string] that holds its UTF-8 bytes.  Where the
      program inspects characters (digits, white space, signs) the bytes
      are decoded to code points, which are classified as Python does:
      the decimal digits and the white space of Unicode.
    - A value decoded from JSON, or passed where Python accepts any
      object, is a [value].  A dict is an association list, looked up at
      its first binding.
    - A call that may raise returns a [result]; code that talks to the
      network runs in the monad [M] over a [world] that holds the replies
      still to come, the requests sent so far and the log. *)

From Stdlib Require Import ZArith List Lia Bool String Ascii.
From Stdlib Require Import Floats.SpecFloat DecimalString.
Import ListNotations.

Local Open Scope string_scope.
Local Open Scope Z_scope.

(** ** Exceptions and results *)

Inductive exn : Type :=
| ConnectionFailure   (* requests.exceptions.ConnectionError, Timeout, ... *)
| HTTPError           (* requests.exceptions.HTTPError, from raise_for_status *)
| JSONDecodeError     (* requests.exceptions.JSONDecodeError, from Response.json *)
| InvalidJSONError    (* requests.exceptions.InvalidJSONError, from a json= argument *)
| InvalidURL          (* requests.exceptions.MissingSchema, InvalidSchema, InvalidURL *)
| KeyError
| IndexError
| TypeError
| AttributeError
| ValueError
| OverflowError.

(** [isinstance(e, requests.exceptions.RequestException)]. *)
Definition is_RequestException (e : exn) : bool :=
  match e with
  | ConnectionFailure | HTTPError | JSONDecodeError | InvalidJSONError | InvalidURL => true
  | _ => false
  end.

Inductive result (A : Type) : Type :=
| Returns (a : A)
| Raises (e : exn).

Arguments Returns {A} a.
Arguments Raises {A} e.

Definition rbind {A B : Type} (r : result A) (k : A -> result B) : result B :=
  match r with
  | Returns a => k a
  | Raises e => Raises e
  end.

Declare Scope py_scope.
Delimit Scope py_scope with py.

Notation "'let*' x ':=' r 'in' k" := (rbind r (fun x => k))
  (at level 10, x name, r at level 100, k at level 200) : py_scope.

(** ** Characters and strings *)

(** A [str] is held as the bytes of its UTF-8 encoding.  [chars] cuts the
    bytes into characters, each with its code point and the bytes that
    encode it (a surrogate, which JSON can deliver, takes three bytes like
    its neighbours).  A byte that starts no well-formed sequence, which
    the encoding of a [str] never holds, is kept as a character of its
    own at a code point that is neither a digit nor white space. *)
Definition pychar : Type := N * list ascii.

Definition is_continuation (c : ascii) : bool :=
  let n := N_of_ascii c in ((128 <=? n) && (n <? 192))%N.

Definition low6 (c : ascii) : N := (N_of_ascii c mod 64)%N.

(** The character made of a byte that starts no well-formed sequence. *)
Definition stray (b : ascii) : pychar := ((56320 + N_of_ascii b)%N, [b]).

Fixpoint chars (l : list ascii) : list pychar :=
  match l with
  | [] => []
  | b0 :: l1 =>
      let n0 := N_of_ascii b0 in
      if (n0 <? 128)%N then (n0, [b0]) :: chars l1
      else if (n0 <? 192)%N then stray b0 :: chars l1
      else
        match l1 with
        | [] => stray b0 :: chars l1
        | b1 :: l2 =>
            if negb (is_continuation b1) then stray b0 :: chars l1
            else if (n0 <? 224)%N
            then (((n0 - 192) * 64 + low6 b1)%N, [b0; b1]) :: chars l2
            else
              match l2 with
              | [] => stray b0 :: chars l1
              | b2 :: l3 =>
                  if negb (is_continuation b2) then stray b0 :: chars l1
                  else if (n0 <? 240)%N
                  then ((((n0 - 224) * 64 + low6 b1) * 64 + low6 b2)%N,
                        [b0; b1; b2]) :: chars l3
                  else
                    match l3 with
                    | [] => stray b0 :: chars l1
                    | b3 :: l4 =>
                        if (is_continuation b3 && (n0 <? 248)%N)%bool
                        then (((((n0 - 240) * 64 + low6 b1) * 64 + low6 b2) * 64
                               + low6 b3)%N, [b0; b1; b2; b3]) :: chars l4
                        else stray b0 :: chars l1
                    end
              end
        end
  end.

(** The characters of a string, and the string of some characters. *)
Definition chars_of (s : string) : list pychar := chars (list_ascii_of_string s).

Definition string_of (l : list pychar) : string :=
  string_of_list_ascii (List.concat (map snd l)).

(** The decimal digits of Unicode (category Nd) come in runs of ten, from
    a zero to a nine; these are the code points of the zeros (Unicode
    14.0, the database of CPython 3.11: ASCII, Arabic-Indic, ...,
    full-width at 65296, ...; a later database adds runs for scripts
    encoded since). *)
Definition decimal_zeros : list N :=
  [48; 1632; 1776; 1984; 2406; 2534; 2662; 2790;
   2918; 3046; 3174; 3302; 3430; 3558; 3664; 3792;
   3872; 4160; 4240; 6112; 6160; 6470; 6608; 6784;
   6800; 6992; 7088; 7232; 7248; 42528; 43216; 43264;
   43472; 43504; 43600; 44016; 65296; 66720; 68912; 69734;
   69872; 69942; 70096; 70384; 70736; 70864; 71248; 71360;
   71472; 71904; 72016; 72784; 73040; 73120; 92768; 92864;
   93008; 120782; 120792; 120802; 120812; 120822; 123200; 123632;
   125264; 130032]%N.

(** [unicodedata.decimal(c)], when [c] is a decimal digit: what [\d]
    matches and what [int] reads as a digit. *)
Definition decimal_value (c : N) : option Z :=
  match find (fun zero => ((zero <=? c) && (c <? zero + 10))%N) decimal_zeros with
  | Some zero => Some (Z.of_N (c - zero))
  | None => None
  end.

Definition is_decimal (c : N) : bool :=
  match decimal_value c with
  | Some _ => true
  | None => false
  end.

(** [c.isspace()]: the white space that [str.strip] removes. *)
Definition is_space (c : N) : bool :=
  (((9 <=? c) && (c <=? 13)) || ((28 <=? c) && (c <=? 32))
   || (c =? 133) || (c =? 160) || (c =? 5760)
   || ((8192 <=? c) && (c <=? 8202))
   || (c =? 8232) || (c =? 8233) || (c =? 8239) || (c =? 8287)
   || (c =? 12288))%N.

(** The white space that [int] skips around a literal: TAB, LF, VT, FF,
    CR, the space, and the white space outside ASCII; the separators FS,
    GS, RS, US are not part of it. *)
Definition int_space (c : N) : bool :=
  (((9 <=? c) && (c <=? 13)) || (c =? 32) || ((128 <=? c) && is_space c))%N.

Fixpoint drop_spaces (l : list pychar) : list pychar :=
  match l with
  | c :: l' => if is_space (fst c) then drop_spaces l' else l
  | [] => []
  end.

(** [s.strip()] *)
Definition strip (s : string) : string :=
  string_of (rev (drop_spaces (rev (drop_spaces (chars_of s))))).

(** [re.sub(r"\D", "", s)]: keep the decimal digits of [s]. *)
Definition only_digits (s : string) : string :=
  string_of (filter (fun c => is_decimal (fst c)) (chars_of s)).

Fixpoint skip_int_spaces (l : list N) : list N :=
  match l with
  | c :: l' => if int_space c then skip_int_spaces l' else l
  | [] => []
  end.

(** The digits of a decimal literal as [int] reads them, with their value
    and their number: a single underscore is allowed between two digits,
    and white space may follow the last digit.  [after_digit] tells
    whether the previous character was a digit. *)
Fixpoint int_digits (after_digit : bool) (acc count : Z) (l : list N)
  : option (Z * Z) :=
  match l with
  | [] => if after_digit then Some (acc, count) else None
  | c :: l' =>
      match decimal_value c with
      | Some d => int_digits true (10 * acc + d) (count + 1) l'
      | None =>
          if ((c =? 95)%N && after_digit)%bool then int_digits false acc count l'
          else if (after_digit && forallb int_space l)%bool then Some (acc, count)
          else None
      end
  end.

(** [sys.int_info.default_max_str_digits]: [int] refuses a literal with
    more digits. *)
Definition max_str_digits : Z := 4300.

(** [int(s)] for a string [s], base ten. *)
Definition int_of_string (s : string) : result Z :=
  let l := skip_int_spaces (map fst (chars_of s)) in
  let '(negative, digits) :=
    match l with
    | c :: l' =>
        if (c =? 43)%N then (false, l')
        else if (c =? 45)%N then (true, l')
        else (false, l)
    | [] => (false, l)
    end in
  match int_digits false 0 0 digits with
  | Some (z, count) =>
      if max_str_digits <? count then Raises ValueError
      else Returns (if negative then - z else z)
  | None => Raises ValueError
  end.

(** [str(z)] for an integer [z]. *)
Definition str_of_int (z : Z) : string := NilZero.string_of_int (Z.to_int z).

(** ** Floats *)

Definition prec : Z := 53.
Definition emax : Z := 1024.

(** [float(z)] *)
Definition float_of_int (z : Z) : spec_float := binary_normalize prec emax z 0 false.

Definition fadd : spec_float -> spec_float -> spec_float := SFadd prec emax.
Definition fmul : spec_float -> spec_float -> spec_float := SFmul prec emax.
Definition fdiv : spec_float -> spec_float -> spec_float := SFdiv prec emax.

(** [int(f)] for a float [f]: truncation towards zero. *)
Definition int_of_float (f : spec_float) : result Z :=
  match f with
  | S754_zero _ => Returns 0
  | S754_finite s m e =>
      let a := if 0 <=? e then Z.pos m * 2 ^ e else Z.quot (Z.pos m) (2 ^ (- e)) in
      Returns (if s then - a else a)
  | S754_infinity _ => Raises OverflowError
  | S754_nan => Raises ValueError
  end.

(** ** Values *)

#[warnings="-register-all"]
Inductive value : Type :=
| VNone
| VBool (b : bool)
| VInt (z : Z)
| VFloat (f : spec_float)
| VStr (s : string)
| VList (l : list value)
| VDict (d : list (string * value)).

Definition dict : Type := list (string * value).

Fixpoint lookup (k : string) (d : dict) : option value :=
  match d with
  | [] => None
  | (k', v) :: d' => if String.eqb k k' then Some v else lookup k d'
  end.

(** Truth value of an object, as [if v], [not v], [a or b] test it. *)
Definition truthy (v : value) : bool :=
  match v with
  | VNone => false
  | VBool b => b
  | VInt z => negb (z =? 0)
  | VFloat (S754_zero _) => false
  | VFloat _ => true
  | VStr s => negb (String.eqb s "")
  | VList l => match l with [] => false | _ => true end
  | VDict d => match d with [] => false | _ => true end
  end.

(** [a or b] *)
Definition py_or (a b : value) : value := if truthy a then a else b.

(** [v == z] for an integer literal [z]. *)
Definition eq_int (v : value) (z : Z) : bool :=
  match v with
  | VInt z' => z' =? z
  | VBool b => (if b then 1 else 0) =? z
  | VFloat f => SFeqb f (float_of_int z)
  | _ => false
  end.

(** [v.get(k, default)]: only a dict has the method. *)
Definition get (v : value) (k : string) (default : value) : result value :=
  match v with
  | VDict d => Returns (match lookup k d with Some x => x | None => default end)
  | _ => Raises AttributeError
  end.

(** [v[k]] for a string key [k]. *)
Definition subscript (v : value) (k : string) : result value :=
  match v with
  | VDict d => match lookup k d with Some x => Returns x | None => Raises KeyError end
  | _ => Raises TypeError
  end.

(** [v[0]] *)
Definition first (v : value) : result value :=
  match v with
  | VList (x :: _) => Returns x
  | VList [] => Raises IndexError
  | VStr s =>
      match chars_of s with
      | c :: _ => Returns (VStr (string_of [c]))
      | [] => Raises IndexError
      end
  | VDict _ => Raises KeyError
  | _ => Raises TypeError
  end.

(** [k in v] for a string [k]: a key of a dict, an element of a list, a
    substring of a string. *)
Fixpoint is_substring (k s : string) : bool :=
  (String.prefix k s ||
   match s with
   | EmptyString => false
   | String _ s' => is_substring k s'
   end)%bool.

Definition contains (v : value) (k : string) : result bool :=
  match v with
  | VDict d => Returns (match lookup k d with Some _ => true | None => false end)
  | VList l =>
      Returns (existsb (fun x => match x with VStr s => String.eqb s k | _ => false end) l)
  | VStr s => Returns (is_substring k s)
  | _ => Raises TypeError
  end.

(** [int(v)] *)
Definition py_int (v : value) : result Z :=
  match v with
  | VInt z => Returns z
  | VBool b => Returns (if b then 1 else 0)
  | VFloat f => int_of_float f
  | VStr s => int_of_string s
  | _ => Raises TypeError
  end.

(** [requests] serialises a [json=] argument with [allow_nan=False]: a
    NaN or an infinity anywhere in the payload is refused. *)
Fixpoint serialisable (v : value) : bool :=
  match v with
  | VFloat (S754_nan | S754_infinity _) => false
  | VList l => forallb serialisable l
  | VDict d => forallb (fun kv => serialisable (snd kv)) d
  | _ => true
  end.

(** ** The network, the log and the monad of effects *)

Inductive request : Type :=
| GET (url : string) (timeout : Z)
| POST (url : string) (body : value) (timeout : Z).

(** What the network answers to one request: nothing usable (connection
    refused, timeout: [requests] raises), or a response with its status
    code and the JSON value of its body, if the body is JSON. *)
Inductive reply : Type :=
| NoReply
| Reply (status_code : Z) (body : option value).

Inductive level : Type := INFO | WARNING | ERROR.

(** A log record keeps the level and the fixed part of the message. *)
Record world : Type := World {
  replies : list reply;
  sent : list request;
  log : list (level * string)
}.

Definition M (A : Type) : Type := world -> result A * world.

Definition ret {A : Type} (a : A) : M A := fun w => (Returns a, w).

Definition raise {A : Type} (e : exn) : M A := fun w => (Raises e, w).

Definition bind {A B : Type} (m : M A) (k : A -> M B) : M B :=
  fun w =>
    match m w with
    | (Returns a, w') => k a w'
    | (Raises e, w') => (Raises e, w')
    end.

Definition lift {A : Type} (r : result A) : M A := fun w => (r, w).

(** [attempt m] runs [m] and hands its outcome, exception included, to an
    [except] clause. *)
Definition attempt {A : Type} (m : M A) : M (result A) :=
  fun w => let (r, w') := m w in (Returns r, w').

Declare Scope io_scope.
Delimit Scope io_scope with io.

Notation "x <- m ;; k" := (bind m (fun x => k))
  (at level 61, m at next level, right associativity) : io_scope.
Notation "m ;; k" := (bind m (fun _ => k))
  (at level 61, right associativity) : io_scope.

Local Open Scope io_scope.

Definition logger (l : level) (msg : string) : M unit :=
  fun w => (Returns tt, World (replies w) (sent w) (log w ++ [(l, msg)])).

(** One exchange: the request is recorded and the next reply consumed; a
    network that has no reply left times out. *)
Definition exchange (q : request) : M (Z * option value) :=
  fun w =>
    let w' := World (tl (replies w)) (sent w ++ [q]) (log w) in
    match replies w with
    | Reply status body :: _ => (Returns (status, body), w')
    | _ => (Raises ConnectionFailure, w')
    end.

(** [requests.get(url, timeout=t)]; the program calls it with the
    timeout 10 and a URL under the fixed https address of the weather
    service only. *)
Definition requests_get (url : string) (t : Z) : M (Z * option value) :=
  exchange (GET url t).

(** [requests.post(url, data=json.dumps(body), headers=..., timeout=t)];
    the headers carry the request signature and are not modelled, and the
    program calls it with the timeout 10 and a URL under the fixed https
    address of the SwitchBot service only. *)
Definition requests_post_data (url : string) (body : value) (t : Z) : M (Z * option value) :=
  exchange (POST url body t).

(** [requests.post(url, json=payload, timeout=t)].  Before anything is
    sent, [requests] refuses a URL that it cannot prepare or has no
    adapter for (no scheme, a scheme other than http and https, no host,
    ...) and a payload that it cannot serialise, each with a
    RequestException, and then a timeout of zero or less with a plain
    ValueError.  Which URLs are usable is left to [usable_url]. *)
Definition requests_post_json (usable_url : string -> bool)
  (url : string) (payload : value) (t : Z) : M (Z * option value) :=
  if negb (usable_url url) then raise InvalidURL
  else if negb (serialisable payload) then raise InvalidJSONError
  else if t <=? 0 then raise ValueError
  else exchange (POST url payload t).

(** [r.raise_for_status()]: an HTTPError for a 4xx or 5xx status code. *)
Definition raise_for_status (r : Z * option value) : result unit :=
  if (400 <=? fst r) && (fst r <? 600) then Raises HTTPError else Returns tt.

(** [r.json()] *)
Definition json (r : Z * option value) : result value :=
  match snd r with
  | Some v => Returns v
  | None => Raises JSONDecodeError
  end.

(** ** Configuration *)

Record config : Type := Config {
  ACCESS_TOKEN : string;
  SECRET : string;
  DEVICE_ID : string;
  CITY_CODE : string;
  USE_COLOR_TEMPERATURE : bool;
  DISCORD_WEBHOOK_URL : string;
  DISCORD_ENABLED : bool;
  DISCORD_TIMEOUT : Z
}.

Definition API_BASE_URL : string := "https://api.switch-bot.com".
Definition WEATHER_URL : string := "https://weather.tsukumijima.net/api/forecast/city".
Definition HTTP_TIMEOUT : Z := 10.

(** ** Weather helpers *)

(** [int(re.sub(r"\D", "", s or "") or 0)] *)
Definition _to_int_pct (s : value) : result Z :=
  match py_or s (VStr "") with
  | VStr t =>
      let digits := only_digits t in
      if String.eqb digits "" then Returns 0 else int_of_string digits
  | _ => Raises TypeError
  end.

Definition get_today_rain_percent_max_all (city_code : string) : M (Z * value) :=
  let url := WEATHER_URL ++ "/" ++ city_code in
  fetched <- attempt (
    r <- requests_get url HTTP_TIMEOUT ;;
    lift (let* _ := raise_for_status r in
          let* data := json r in
          let* forecasts := subscript data "forecasts" in
          let* today := first forecasts in
          let* rain := subscript today "chanceOfRain" in
          Returns (data, rain))%py) ;;
  match fetched with
  | Raises _ =>
      logger ERROR "Weather API error" ;;
      ret (0, VDict [])
  | Returns (data, rain) =>
      slots <- lift (let* s1 := get rain "T06_12" (VStr "") in
                     let* t06_12 := _to_int_pct s1 in
                     let* s2 := get rain "T12_18" (VStr "") in
                     let* t12_18 := _to_int_pct s2 in
                     let* s3 := get rain "T18_24" (VStr "") in
                     let* t18_24 := _to_int_pct s3 in
                     Returns (t06_12, t12_18, t18_24))%py ;;
      let '(t06_12, t12_18, t18_24) := slots in
      let val := Z.max (Z.max t06_12 t12_18) t18_24 in
      logger INFO "[max_daylight]" ;;
      ret (val, data)
  end.

(** ** SwitchBot command *)

(** [generate_sign] only fills the request headers, which the model of
    the network leaves out; [post_command] starts with the request
    itself. *)
Definition post_command (device_id command parameter command_type : string)
  : M (option value) :=
  let url := API_BASE_URL ++ "/v1.1/devices/" ++ device_id ++ "/commands" in
  let body := VDict [("command", VStr command);
                     ("parameter", VStr parameter);
                     ("commandType", VStr command_type)] in
  posted <- attempt (
    logger INFO "POST" ;;
    r <- requests_post_data url body HTTP_TIMEOUT ;;
    _ <- lift (raise_for_status r) ;;
    payload <- lift (json r) ;;
    status <- lift (get payload "statusCode" VNone) ;;
    (if negb (eq_int status 100)
     then logger ERROR "SwitchBot error"
     else logger INFO "SwitchBot OK") ;;
    ret payload) ;;
  match posted with
  | Returns payload => ret (Some payload)
  | Raises e =>
      if is_RequestException e
      then logger ERROR "SwitchBot request error" ;; ret None
      else raise e
  end.

(** ** Floor lamp operations *)

Definition clamp_brightness (brightness : value) : Z :=
  let b := match py_int brightness with
           | Returns b => b
           | Raises _ => 100
           end in
  Z.max 1 (Z.min 100 b).

(** [color] is a tuple of three integers, on which [int(v)] is the
    identity; the result of each [post_command] is dropped. *)
Definition set_lamp_rgb (device_id : string) (color : Z * Z * Z) (brightness : value)
  : M unit :=
  let '(r, g, b) := color in
  let r := Z.max 0 (Z.min 255 r) in
  let g := Z.max 0 (Z.min 255 g) in
  let b := Z.max 0 (Z.min 255 b) in
  let brightness := clamp_brightness brightness in
  post_command device_id "setBrightness" (str_of_int brightness) "command" ;;
  post_command device_id "setColor"
    (str_of_int r ++ ":" ++ str_of_int g ++ ":" ++ str_of_int b) "command" ;;
  post_command device_id "turnOn" "default" "command" ;;
  ret tt.

Definition set_lamp_ct (device_id : string) (color_temperature : Z) (brightness : value)
  : M unit :=
  let ct := Z.max 2700 (Z.min 6500 color_temperature) in
  let brightness := clamp_brightness brightness in
  post_command device_id "setBrightness" (str_of_int brightness) "command" ;;
  post_command device_id "setColorTemperature" (str_of_int ct) "command" ;;
  post_command device_id "turnOn" "default" "command" ;;
  ret tt.

(** ** Mapping: rain% -> RGB / CT *)

Definition map_rain_to_rgb (rain : Z) : Z * Z * Z :=
  if rain =? 0 then (255, 127, 0)
  else if rain <=? 20 then (255, 255, 0)
  else if rain <=? 40 then (127, 255, 0)
  else if rain <=? 60 then (0, 255, 255)
  else if rain <=? 80 then (0, 127, 255)
  else (0, 0, 255).

(** [int(ct_min + (ct_max - ct_min) * (rain / 100.0))], in floats; [rain]
    is an integer, on which [int(rain)] is the identity. *)
Definition map_rain_to_ct (rain : Z) : result Z :=
  let rain := Z.max 0 (Z.min 100 rain) in
  let ct_min := 2700 in
  let ct_max := 6500 in
  int_of_float
    (fadd (float_of_int ct_min)
          (fmul (float_of_int (ct_max - ct_min))
                (fdiv (float_of_int rain) (float_of_int 100)))).

(** ** Discord helpers *)

Definition rgb_to_decimal (rgb : Z * Z * Z) : Z :=
  let '(r, g, b) := rgb in
  Z.shiftl r 16 + Z.shiftl g 8 + b.

(** [c if c and c.strip() else None]: the text of a Celsius value that is
    there, [None] for one that is not. *)
Definition present (c : value) : result (option string) :=
  if truthy c then
    match c with
    | VStr s => Returns (if String.eqb (strip s) "" then None else Some s)
    | _ => Raises AttributeError
    end
  else Returns None.

(** [d.get("celsius") if isinstance(d, dict) else None] *)
Definition celsius (d : value) : result value :=
  match d with
  | VDict _ => get d "celsius" VNone
  | _ => Returns VNone
  end.

Definition format_temperature (temp : value) : result string :=
  (if negb (truthy temp) then Returns "--" else
   let* has_min := contains temp "min" in
   if negb has_min then Returns "--" else
   let* has_max := contains temp "max" in
   if negb has_max then Returns "--" else
   let* min_data := get temp "min" (VDict []) in
   let* max_data := get temp "max" (VDict []) in
   let* min_c := celsius min_data in
   let* max_c := celsius max_data in
   let* min_c := present min_c in
   let* max_c := present max_c in
   match min_c, max_c with
   | Some lo, Some hi => Returns (lo ++ "C / " ++ hi ++ "C")
   | None, Some hi => Returns ("Max " ++ hi ++ "C")
   | Some lo, None => Returns ("Min " ++ lo ++ "C")
   | None, None => Returns "--"
   end)%py.

(** The lamp setting that [main] hands to the notification: a dict with
    the key [max_rain] and one of [ct] and [rgb]; an absent key is
    [None]. *)
Record lamp_setting : Type := LampSetting {
  max_rain : option Z;
  ct : option Z;
  rgb : option (Z * Z * Z)
}.

Section Notification.

(** [str] of a float, a list or a dict, which the embed may quote from the
    forecast: text that the program never looks into. *)
Variable repr : value -> string.

Variable cfg : config.

(** Whether [requests] can prepare and route a request to a URL. *)
Variable usable_url : string -> bool.

(** [f"{v}"] *)
Definition py_str (v : value) : string :=
  match v with
  | VStr s => s
  | VInt z => str_of_int z
  | VNone => "None"
  | VBool true => "True"
  | VBool false => "False"
  | _ => repr v
  end.

Definition field (name : string) (v : value) (inline : bool) : value :=
  VDict [("name", VStr name); ("value", v); ("inline", VBool inline)].

Definition build_discord_embed (weather_data : value) (lamp : lamp_setting)
  : result value :=
  (if negb (truthy weather_data) then Returns (VDict []) else
   let* forecasts := get weather_data "forecasts" (VList [VDict []]) in
   let* forecast := first forecasts in
   let* location := get weather_data "location" (VDict []) in
   let* publishing_office := get forecast "publishingOffice" (VStr "") in
   let* district := get location "district" VNone in
   let* area := if truthy district then Returns district
                else get location "city" (VStr "") in
   let* prefecture := get location "prefecture" (VStr "") in
   let* city := get location "city" (VStr "") in
   let title := "🌤️ Today's Weather - " ++ py_str prefecture ++ " " ++ py_str city in
   let* jma_url := get forecast "linkUrl" (VStr "") in
   let* url :=
     if truthy jma_url then Returns jma_url
     else
       let* lat := get location "lat" (VStr "") in
       let* lon := get location "lon" (VStr "") in
       Returns (VStr ("https://www.jma.go.jp/bosai/map.html#contents=forecast_map&lat="
                      ++ py_str lat ++ "&lon=" ++ py_str lon ++ "&zoom=8")) in
   let color :=
     rgb_to_decimal (match rgb lamp with Some c => c | None => (255, 127, 0) end) in
   let* rain := get forecast "chanceOfRain" (VDict []) in
   let* t00_06 := get rain "T00_06" (VStr "--") in
   let* t06_12 := get rain "T06_12" (VStr "--") in
   let* t12_18 := get rain "T12_18" (VStr "--") in
   let* t18_24 := get rain "T18_24" (VStr "--") in
   let rain_max := match max_rain lamp with Some z => z | None => 0 end in
   let* telop := get forecast "telop" (VStr "") in
   let* image := get forecast "image" (VDict []) in
   let* icon_url := get image "url" (VStr "") in
   let* temperature := get forecast "temperature" (VDict []) in
   let* temp_str := format_temperature temperature in
   let* detail_text := get forecast "detail" (VDict []) in
   let desc := if truthy area
               then VStr (py_str telop ++ " - " ++ py_str area)
               else telop in
   let slot (t : value) : value := if truthy t then t else VStr "--%" in
   let fields :=
     [field "Precipitation (Max)" (VStr (str_of_int rain_max ++ "%")) true;
      field "06-12" (slot t06_12) true;
      field "12-18" (slot t12_18) true;
      field "18-24" (slot t18_24) true;
      field "Temperature" (VStr temp_str) true] in
   let lamp_field :=
     if USE_COLOR_TEMPERATURE cfg then
       let kelvin := match ct lamp with Some z => z | None => 0 end in
       field "Lamp Setting" (VStr ("Color Temp: " ++ str_of_int kelvin ++ "K")) true
     else
       let '(r, g, b) := match rgb lamp with Some c => c | None => (0, 0, 0) end in
       field "Lamp Setting"
         (VStr ("RGB(" ++ str_of_int r ++ "," ++ str_of_int g ++ ","
                ++ str_of_int b ++ ")")) true in
   let* details :=
     if truthy detail_text then
       let* weather_detail := get detail_text "weatherDetail" (VStr "") in
       Returns (if truthy weather_detail
                then [field "Details" weather_detail false]
                else [])
     else Returns [] in
   Returns (VDict
     [("title", VStr title);
      ("url", url);
      ("description", desc);
      ("color", VInt color);
      ("fields", VList (fields ++ [lamp_field] ++ details));
      ("thumbnail", if truthy icon_url then VDict [("url", icon_url)] else VDict []);
      ("footer", VDict [("text", VStr (py_str publishing_office
                                         ++ " / Tsukumijima Weather API"))])]))%py.

Definition send_discord_notification (weather_data : value) (lamp : lamp_setting)
  : M bool :=
  if negb (DISCORD_ENABLED cfg) then
    logger INFO "Discord notification is disabled" ;;
    ret true
  else if String.eqb (DISCORD_WEBHOOK_URL cfg) "" then
    logger WARNING "DISCORD_WEBHOOK_URL is not set" ;;
    ret false
  else
    embed <- lift (build_discord_embed weather_data lamp) ;;
    if negb (truthy embed) then
      logger WARNING "Failed to build Discord embed" ;;
      ret false
    else
      let payload := VDict [("embeds", VList [embed])] in
      posted <- attempt (
        response <- requests_post_json usable_url (DISCORD_WEBHOOK_URL cfg) payload
                      (DISCORD_TIMEOUT cfg) ;;
        _ <- lift (raise_for_status response) ;;
        logger INFO "Discord notification sent successfully" ;;
        ret true) ;;
      match posted with
      | Returns b => ret b
      | Raises e =>
          if is_RequestException e
          then logger WARNING "Discord notification failed" ;; ret false
          else raise e
      end.

(** ** Main *)

Definition main : M bool :=
  fetched <- get_today_rain_percent_max_all (CITY_CODE cfg) ;;
  let '(rain, weather_data) := fetched in
  logger INFO "Rain chance used" ;;
  let brightness := VInt 100 in
  let lamp := LampSetting (Some rain) None None in
  lamp <-
    (if USE_COLOR_TEMPERATURE cfg then
       kelvin <- lift (map_rain_to_ct rain) ;;
       let lamp := LampSetting (max_rain lamp) (Some kelvin) (rgb lamp) in
       logger INFO "Set CT" ;;
       set_lamp_ct (DEVICE_ID cfg) kelvin brightness ;;
       ret lamp
     else
       let colour := map_rain_to_rgb rain in
       let lamp := LampSetting (max_rain lamp) (ct lamp) (Some colour) in
       logger INFO "Set RGB" ;;
       set_lamp_rgb (DEVICE_ID cfg) colour brightness ;;
       ret lamp) ;;
  send_discord_notification weather_data lamp ;;
  ret true.

End Notification.

(** * Vocabulary of the specification *)

(** [clamp lo hi z]: [z] brought into the interval from [lo] to [hi]. *)
Definition clamp (lo hi z : Z) : Z := Z.max lo (Z.min hi z).

(** The sanitiser in the words of the specification: the number that the
    decimal digits of [s] denote, read left to right, every other
    character being skipped; 0 when [s] has no digit. *)
Definition sanitizePercent (s : string) : Z :=
  fold_left (fun acc c => match decimal_value (fst c) with
                          | Some d => 10 * acc + d
                          | None => acc
                          end) (chars_of s) 0.

(** The number of decimal digits in [s]. *)
Definition digit_count (s : string) : Z :=
  Z.of_nat (List.length (filter (fun c => is_decimal (fst c)) (chars_of s))).

(** [forecasts[0].chanceOfRain] of a decoded forecast, when the expected
    keys are there. *)
Definition chance_of_rain (data : value) : option value :=
  match data with
  | VDict d =>
      match lookup "forecasts" d with
      | Some (VList (VDict today :: _)) => lookup "chanceOfRain" today
      | _ => None
      end
  | _ => None
  end.

(** The percentage of slot [k]: its sanitised text, 0 for a slot that is
    missing or null. *)
Definition slot_percent (rain : dict) (k : string) : Z :=
  match lookup k rain with
  | Some (VStr s) => sanitizePercent s
  | _ => 0
  end.


(** A forecast to try the reducer on: the largest value sits in the slot
    that is not used. *)
Definition sample_rain : dict :=
  [("T00_06", VStr "90%"); ("T06_12", VStr "20%");
   ("T12_18", VStr "70%"); ("T18_24", VStr "")].

Definition sample_forecast : value :=
  VDict [("forecasts", VList [VDict [("chanceOfRain", VDict sample_rain)]])].




(** The fetch fails, in the words of the specification: a network error,
    an HTTP error status, a body that is not JSON, or a body without the
    expected keys. *)
Definition fetch_fails (w : world) : Prop :=
  match replies w with
  | [] | NoReply :: _ => True
  | Reply status body :: _ =>
      400 <= status < 600
      \/ match body with
         | None => True
         | Some data => chance_of_rain data = None
         end
  end.

(** The request that carries one device command. *)
Definition command_request (device_id command parameter : string) : request :=
  POST (API_BASE_URL ++ "/v1.1/devices/" ++ device_id ++ "/commands")
       (VDict [("command", VStr command);
               ("parameter", VStr parameter);
               ("commandType", VStr "command")])
       HTTP_TIMEOUT.

(** The [statusCode] field of a response object, [None] when absent. *)
Definition status_code (d : dict) : value :=
  match lookup "statusCode" d with
  | Some v => v
  | None => VNone
  end.

(** A reply that [post_command] reports, as a success or as a failure: no
    reply at all, an HTTP error status, a body that is not JSON, or a JSON
    object whatever its [statusCode]. *)
Definition reported (r : reply) : bool :=
  match r with
  | NoReply => true
  | Reply status body =>
      ((400 <=? status) && (status <? 600))
      || match body with
         | None | Some (VDict _) => true
         | Some _ => false
         end
  end.

(** Three replies, each a failure of its command: an HTTP error, no reply,
    and a [statusCode] other than 100. *)
Definition failing_replies : list reply :=
  [Reply 500 None; NoReply; Reply 200 (Some (VDict [("statusCode", VInt 190)]))].

(** [s] is empty or made of white space only. *)
Definition blank (s : string) : bool :=
  forallb (fun c => is_space (fst c)) (chars_of s).

(** A [min] or [max] entry as the forecast gives it: null, or an object
    whose [celsius] is missing, null or a string. *)
Definition celsius_entry (entry : value) : Prop :=
  match entry with
  | VNone => True
  | VDict d =>
      match lookup "celsius" d with
      | None | Some VNone | Some (VStr _) => True
      | _ => False
      end
  | _ => False
  end.

(** The Celsius text of an entry when it is present: a string that is not
    blank. *)
Definition celsius_text (entry : value) : option string :=
  match entry with
  | VDict d =>
      match lookup "celsius" d with
      | Some (VStr s) => if blank s then None else Some s
      | _ => None
      end
  | _ => None
  end.

(** The text for a minimum and a maximum, each present or absent. *)
Definition temperature_range (lo hi : option string) : string :=
  match lo, hi with
  | Some lo, Some hi => lo ++ "C / " ++ hi ++ "C"
  | None, Some hi => "Max " ++ hi ++ "C"
  | Some lo, None => "Min " ++ lo ++ "C"
  | None, None => "--"
  end.

Definition celsius_of (s : string) : value := VDict [("celsius", VStr s)].


(** A configuration, a lamp setting and a rendering of quoted objects to
    try the notifier on. *)
Definition sample_config : config :=
  Config "token" "secret" "DEV" "130010" true "https://discord.example/hook" true 10.

Definition sample_lamp : lamp_setting := LampSetting (Some 70) (Some 5360) None.

Definition sample_repr (v : value) : string := "...".

(** A URL check to try the notifier with: the https URLs are usable. *)
Definition sample_usable (url : string) : bool := String.prefix "https://" url.


(** A request that, if it carries a notification [{"embeds": [embed]}],
    carries one whose colour is the orange 16744192. *)
Definition orange_if_notification (q : request) : Prop :=
  forall (url : string) (embed : value) (t : Z),
    q = POST url (VDict [("embeds", VList [embed])]) t ->
    exists e : dict, embed = VDict e /\ lookup "color" e = Some (VInt 16744192).

(** A run to try the orchestrator on: the forecast arrives, the three
    device commands are answered, the webhook accepts the notification. *)
Definition sample_world : world :=
  World [Reply 200 (Some sample_forecast);
         Reply 200 (Some (VDict [("statusCode", VInt 100)]));
         Reply 200 (Some (VDict [("statusCode", VInt 100)]));
         Reply 200 (Some (VDict [("statusCode", VInt 100)]));
         Reply 204 None] [] [].

(** The channels read back from a Discord colour value. *)
Definition decimal_to_rgb (c : Z) : Z * Z * Z :=
  (Z.shiftr c 16, Z.land (Z.shiftr c 8) 255, Z.land c 255).

(** [z] is a colour channel. *)
Definition channel (z : Z) : Prop := 0 <= z <= 255.

(** Slot [k] holds something the sanitiser rejects: a value that is true
    and is not a string, such as the number 40. *)
Definition slot_rejected (rain : dict) (k : string) : bool :=
  match lookup k rain with
  | Some (VStr _) | None => false
  | Some x => truthy x
  end.

(** The level of a forecast: the largest of its three daytime slots. *)
Definition rain_level (rain : dict) : Z :=
  Z.max (Z.max (slot_percent rain "T06_12") (slot_percent rain "T12_18"))
        (slot_percent rain "T18_24").

(** What the sanitiser raises on slot [k], if anything: TypeError for a
    value that is true and is not a string, ValueError for a string with
    more decimal digits than [int] accepts. *)
Definition slot_error (rain : dict) (k : string) : option exn :=
  match lookup k rain with
  | None => None
  | Some (VStr s) => if max_str_digits <? digit_count s then Some ValueError else None
  | Some x => if truthy x then Some TypeError else None
  end.

(** The first error among the three daytime slots, in the order in which
    the code reads them. *)
Definition slots_error (rain : dict) : option exn :=
  match slot_error rain "T06_12" with
  | Some e => Some e
  | None =>
      match slot_error rain "T12_18" with
      | Some e => Some e
      | None => slot_error rain "T18_24"
      end
  end.

(** [forecasts[0].detail.weatherDetail] of a forecast, when it is there
    and true: the text of the Details field. *)
Definition weather_detail (weather_data : value) : option value :=
  match weather_data with
  | VDict d =>
      match lookup "forecasts" d with
      | Some (VList (VDict today :: _)) =>
          match lookup "detail" today with
          | Some (VDict detail) =>
              match lookup "weatherDetail" detail with
              | Some v => if truthy v then Some v else None
              | None => None
              end
          | _ => None
          end
      | _ => None
      end
  | _ => None
  end.

(** A forecast with a weather detail. *)
Definition detailed_forecast : value :=
  VDict [("forecasts",
          VList [VDict [("chanceOfRain", VDict sample_rain);
                        ("detail", VDict [("weatherDetail", VStr "Cloudy, rain later")])]])].

(** The world after one exchange that sent [q]. *)
Definition after_request (q : request) (w w' : world) : Prop :=
  sent w' = (sent w ++ [q])%list /\ replies w' = tl (replies w).

(** Two malformed forecasts: [chanceOfRain] is null; a slot is a number. *)
Definition null_rain : value :=
  VDict [("forecasts", VList [VDict [("chanceOfRain", VNone)]])].

Definition number_rain : value :=
  VDict [("forecasts", VList [VDict [("chanceOfRain", VDict [("T06_12", VInt 40)])]])].

(** A forecast whose [location] is null. *)
Definition null_location : value :=
  VDict [("forecasts", VList [VDict [("chanceOfRain", VDict sample_rain)]]);
         ("location", VNone)].

(** The parameter of setColor for a colour: "R:G:B" in decimal. *)
Definition colour_parameter (c : Z * Z * Z) : string :=
  let '(r, g, b) := c in
  str_of_int r ++ ":" ++ str_of_int g ++ ":" ++ str_of_int b.

(** A request that, if it carries a notification, carries one whose
    colour is the decimal of [c]. *)
Definition coloured_if_notification (c : Z * Z * Z) (q : request) : Prop :=
  forall (url : string) (embed : value) (t : Z),
    q = POST url (VDict [("embeds", VList [embed])]) t ->
    exists e : dict,
      embed = VDict e /\ lookup "color" e = Some (VInt (rgb_to_decimal c)).

(** The sample configuration in RGB mode. *)
Definition sample_rgb_config : config :=
  Config "token" "secret" "DEV" "130010" false "https://discord.example/hook" true 10.

(** * Properties *)

(** ** The colour mappers *)

Lemma map_rain_to_ct_clamp (rain : Z) :
  map_rain_to_ct rain = map_rain_to_ct (clamp 0 100 rain).
Proof.
  unfold map_rain_to_ct, clamp.
  replace (Z.max 0 (Z.min 100 (Z.max 0 (Z.min 100 rain))))
    with (Z.max 0 (Z.min 100 rain)) by lia.
  reflexivity.
Qed.

(** On each of the 101 levels the float computation lands exactly on the
    integer [2700 + 38 * level]. *)
Lemma map_rain_to_ct_table :
  forallb (fun n => match map_rain_to_ct (Z.of_nat n) with
                    | Returns k => k =? 2700 + 38 * Z.of_nat n
                    | Raises _ => false
                    end) (seq 0 101) = true.
Proof. vm_compute. reflexivity. Qed.

Lemma map_rain_to_ct_in_range (level : Z) :
  0 <= level <= 100 -> map_rain_to_ct level = Returns (2700 + 38 * level).
Proof.
  intros Hl.
  pose proof map_rain_to_ct_table as Ht.
  rewrite forallb_forall in Ht.
  specialize (Ht (Z.to_nat level)).
  rewrite Z2Nat.id in Ht by lia.
  destruct (map_rain_to_ct level) as [k|e].
  - f_equal. apply Z.eqb_eq. apply Ht. apply in_seq. lia.
  - discriminate Ht. apply in_seq. lia.
Qed.

Lemma map_rain_to_ct_closed_form (level : Z) :
  map_rain_to_ct level = Returns (2700 + 38 * clamp 0 100 level).
Proof.
  rewrite map_rain_to_ct_clamp.
  apply map_rain_to_ct_in_range. unfold clamp. lia.
Qed.

(** C2, as the claim states it, fails: level 70 gives 5360 K, not 5260 K. *)
Lemma map_rain_to_ct_70_is_not_5260 :
  map_rain_to_ct 70 = Returns 5360 /\ map_rain_to_ct 70 <> Returns 5260.
Proof.
  assert (H : map_rain_to_ct 70 = Returns 5360) by (vm_compute; reflexivity).
  split; [exact H | rewrite H; discriminate].
Qed.

(** C2 (amended): for every integer level, [map_rain_to_ct] clamps the
    level to [0,100] and returns 2700 + (6500-2700) * level / 100 as an
    integer; levels 0, 50, 70 and 100 give 2700, 4600, 5360 and 6500. *)
Theorem map_rain_to_ct_linear (level : Z) :
  map_rain_to_ct level
    = Returns (2700 + (6500 - 2700) * clamp 0 100 level / 100)
  /\ map_rain_to_ct 0 = Returns 2700
  /\ map_rain_to_ct 50 = Returns 4600
  /\ map_rain_to_ct 70 = Returns 5360
  /\ map_rain_to_ct 100 = Returns 6500.
Proof.
  split.
  - rewrite map_rain_to_ct_closed_form. f_equal.
    replace ((6500 - 2700) * clamp 0 100 level) with (38 * clamp 0 100 level * 100) by lia.
    rewrite Z.div_mul by lia. reflexivity.
  - repeat split; vm_compute; reflexivity.
Qed.

(** C9: [map_rain_to_ct] is monotonically non-decreasing: for levels
    [a <= b] both calls return, and the first result is at most the
    second. *)
Theorem map_rain_to_ct_monotone (a b : Z) :
  a <= b ->
  exists ka kb,
    map_rain_to_ct a = Returns ka /\ map_rain_to_ct b = Returns kb /\ ka <= kb.
Proof.
  intros Hab.
  exists (2700 + 38 * clamp 0 100 a), (2700 + 38 * clamp 0 100 b).
  repeat split; try apply map_rain_to_ct_closed_form.
  unfold clamp. lia.
Qed.

Lemma map_rain_to_ct_monotone_witness :
  20 <= 70 /\
  exists ka kb,
    map_rain_to_ct 20 = Returns ka /\ map_rain_to_ct 70 = Returns kb /\ ka <= kb.
Proof.
  split; [lia | apply (map_rain_to_ct_monotone 20 70); lia].
Defined.

(** C4: [map_rain_to_rgb] is a step function defined on every integer:
    0 is orange, (0,20] yellow, (20,40] lime, (40,60] cyan, (60,80]
    blue-ish, (80,100] deep blue; a boundary belongs to the bucket it
    closes, so 20 is yellow and 21 is lime. *)
Theorem map_rain_to_rgb_buckets (level : Z) :
  (level = 0 -> map_rain_to_rgb level = (255, 127, 0))
  /\ (0 < level <= 20 -> map_rain_to_rgb level = (255, 255, 0))
  /\ (20 < level <= 40 -> map_rain_to_rgb level = (127, 255, 0))
  /\ (40 < level <= 60 -> map_rain_to_rgb level = (0, 255, 255))
  /\ (60 < level <= 80 -> map_rain_to_rgb level = (0, 127, 255))
  /\ (80 < level <= 100 -> map_rain_to_rgb level = (0, 0, 255))
  /\ map_rain_to_rgb 20 = (255, 255, 0)
  /\ map_rain_to_rgb 21 = (127, 255, 0).
Proof.
  unfold map_rain_to_rgb.
  repeat split; try reflexivity; intros H;
    repeat match goal with
           | |- context [?x =? ?y] => destruct (Z.eqb_spec x y); try lia
           | |- context [?x <=? ?y] => destruct (Z.leb_spec x y); try lia
           end; reflexivity.
Qed.

Lemma map_rain_to_rgb_buckets_witness :
  60 < 70 <= 80 /\ map_rain_to_rgb 70 = (0, 127, 255).
Proof.
  split; [lia | apply (map_rain_to_rgb_buckets 70); lia].
Defined.

(** ** Characters and the sanitiser *)

Lemma chars_Forall (P : pychar -> Prop) :
  (forall b0, (N_of_ascii b0 <? 128)%N = true -> P (N_of_ascii b0, [b0])) ->
  (forall b0, (N_of_ascii b0 <? 128)%N = false -> P (stray b0)) ->
  (forall b0 b1,
      (N_of_ascii b0 <? 128)%N = false -> (N_of_ascii b0 <? 192)%N = false ->
      is_continuation b1 = true -> (N_of_ascii b0 <? 224)%N = true ->
      P (((N_of_ascii b0 - 192) * 64 + low6 b1)%N, [b0; b1])) ->
  (forall b0 b1 b2,
      (N_of_ascii b0 <? 128)%N = false -> (N_of_ascii b0 <? 192)%N = false ->
      is_continuation b1 = true -> (N_of_ascii b0 <? 224)%N = false ->
      is_continuation b2 = true -> (N_of_ascii b0 <? 240)%N = true ->
      P ((((N_of_ascii b0 - 224) * 64 + low6 b1) * 64 + low6 b2)%N, [b0; b1; b2])) ->
  (forall b0 b1 b2 b3,
      (N_of_ascii b0 <? 128)%N = false -> (N_of_ascii b0 <? 192)%N = false ->
      is_continuation b1 = true -> (N_of_ascii b0 <? 224)%N = false ->
      is_continuation b2 = true -> (N_of_ascii b0 <? 240)%N = false ->
      is_continuation b3 = true -> (N_of_ascii b0 <? 248)%N = true ->
      P (((((N_of_ascii b0 - 240) * 64 + low6 b1) * 64 + low6 b2) * 64 + low6 b3)%N,
         [b0; b1; b2; b3])) ->
  forall l, Forall P (chars l).
Proof.
  intros A S2 B2 B3 B4 l.
  assert (H : forall n l, (List.length l <= n)%nat -> Forall P (chars l)).
  { clear l. induction n as [|n IH]; intros [|b0 l1] Hl;
      try (constructor; fail); [cbn [List.length] in Hl; lia|].
    cbn [List.length] in Hl.
    assert (I1 : Forall P (chars l1)) by (apply IH; lia).
    cbn [chars].
    destruct (N_of_ascii b0 <? 128)%N eqn:E1; [constructor; auto|].
    destruct (N_of_ascii b0 <? 192)%N eqn:E2; [constructor; auto|].
    destruct l1 as [|b1 l2]; [constructor; auto|].
    destruct (is_continuation b1) eqn:C1; cbn [negb]; [|constructor; auto].
    cbn [List.length] in Hl.
    destruct (N_of_ascii b0 <? 224)%N eqn:E3;
      [constructor; [auto | apply IH; lia]|].
    destruct l2 as [|b2 l3]; [constructor; auto|].
    destruct (is_continuation b2) eqn:C2; cbn [negb]; [|constructor; auto].
    cbn [List.length] in Hl.
    destruct (N_of_ascii b0 <? 240)%N eqn:E4;
      [constructor; [auto | apply IH; lia]|].
    destruct l3 as [|b3 l4]; [constructor; auto|].
    cbn [List.length] in Hl.
    destruct (is_continuation b3) eqn:C3; cbn [andb]; [|constructor; auto].
    destruct (N_of_ascii b0 <? 248)%N eqn:E5;
      [constructor; [auto | apply IH; lia]|constructor; auto]. }
  apply (H (List.length l)). lia.
Qed.

Lemma chars_bytes (l : list ascii) : Forall (fun c => snd c <> []) (chars l).
Proof.
  apply chars_Forall; intros; cbn [snd]; discriminate.
Qed.

Lemma string_of_empty (cs : list pychar) :
  Forall (fun c => snd c <> []) cs -> string_of cs = "" -> cs = [].
Proof.
  intros H E. unfold string_of in E.
  apply (f_equal list_ascii_of_string) in E.
  rewrite list_ascii_of_string_of_list_ascii in E. cbn [list_ascii_of_string] in E.
  destruct cs as [|c cs]; [reflexivity|].
  inversion H as [|? ? Hc _]; subst.
  cbn [map List.concat] in E. apply app_eq_nil in E. destruct E as [E _].
  contradiction.
Qed.

Lemma decimal_value_zero (c : N) (d : Z) :
  decimal_value c = Some d ->
  exists zero, In zero decimal_zeros /\ (zero <= c < zero + 10)%N
               /\ d = Z.of_N (c - zero).
Proof.
  unfold decimal_value.
  destruct (find (fun zero => ((zero <=? c) && (c <? zero + 10))%N) decimal_zeros)
    as [zero|] eqn:F; [|discriminate].
  apply find_some in F. destruct F as [Hin Hz].
  apply andb_true_iff in Hz. destruct Hz as [H1 H2].
  apply N.leb_le in H1. apply N.ltb_lt in H2.
  intros E. apply (f_equal (fun o => match o with Some x => x | None => 0 end)) in E.
  exists zero. split; [exact Hin|]. split; [lia|]. symmetry. exact E.
Qed.

(** A property of the decimal digits that holds on the table holds of
    every decimal digit. *)
Lemma decimal_forall (P : N -> bool) :
  forallb (fun zero => forallb (fun i => P (zero + i)%N) [0; 1; 2; 3; 4; 5; 6; 7; 8; 9]%N)
          decimal_zeros = true ->
  forall c, is_decimal c = true -> P c = true.
Proof.
  intros H c Hc. unfold is_decimal in Hc.
  destruct (decimal_value c) as [d|] eqn:E; [|discriminate].
  destruct (decimal_value_zero c d E) as (zero & Hin & Hr & _).
  rewrite forallb_forall in H. specialize (H zero Hin).
  rewrite forallb_forall in H. specialize (H (c - zero)%N).
  replace (zero + (c - zero))%N with c in H by lia.
  apply H. cbn [In].
  assert (D : (c - zero = 0 \/ c - zero = 1 \/ c - zero = 2 \/ c - zero = 3
               \/ c - zero = 4 \/ c - zero = 5 \/ c - zero = 6 \/ c - zero = 7
               \/ c - zero = 8 \/ c - zero = 9)%N) by lia.
  intuition auto.
Qed.

Lemma decimal_value_range (c : N) (d : Z) : decimal_value c = Some d -> 0 <= d <= 9.
Proof.
  intros E. destruct (decimal_value_zero c d E) as (zero & _ & Hr & ->). lia.
Qed.

Lemma decimal_not_int_space (c : N) :
  is_decimal c = true ->
  int_space c = false /\ (c =? 43)%N = false /\ (c =? 45)%N = false.
Proof.
  intros H.
  pose proof (decimal_forall
                (fun c => negb (int_space c) && negb (c =? 43)%N && negb (c =? 45)%N)
                ltac:(vm_compute; reflexivity) c H) as E.
  cbv beta in E.
  apply andb_true_iff in E. destruct E as [E E3].
  apply andb_true_iff in E. destruct E as [E1 E2].
  apply negb_true_iff in E1, E2, E3. auto.
Qed.

Lemma stray_not_decimal (b : ascii) : is_decimal (56320 + N_of_ascii b) = false.
Proof.
  destruct (is_decimal (56320 + N_of_ascii b)) eqn:H; [|reflexivity].
  pose proof (decimal_forall
                (fun c => negb ((56320 <=? c) && (c <? 56576))%N)
                ltac:(vm_compute; reflexivity) _ H) as E.
  cbv beta in E. apply negb_true_iff in E. apply andb_false_iff in E.
  pose proof (N_ascii_bounded b).
  destruct E as [E|E]; [apply N.leb_gt in E | apply N.ltb_ge in E]; lia.
Qed.

(** Decoding the bytes of a decimal digit gives the digit back, whatever
    follows. *)
Lemma decimal_encoded (l : list ascii) :
  Forall (fun c => is_decimal (fst c) = true ->
                   forall rest, chars (snd c ++ rest) = c :: chars rest)
         (chars l).
Proof.
  apply chars_Forall.
  - intros b0 E1 _ rest. cbn [snd app chars]. rewrite E1. reflexivity.
  - intros b0 _ H. unfold stray in H. cbn [fst] in H.
    rewrite stray_not_decimal in H. discriminate H.
  - intros b0 b1 E1 E2 C1 E3 _ rest. cbn [snd app chars].
    rewrite E1, E2, C1, E3. reflexivity.
  - intros b0 b1 b2 E1 E2 C1 E3 C2 E4 _ rest. cbn [snd app chars].
    rewrite E1, E2, C1, E3, C2, E4. reflexivity.
  - intros b0 b1 b2 b3 E1 E2 C1 E3 C2 E4 C3 E5 _ rest. cbn [snd app chars].
    rewrite E1, E2, C1, E3, C2, E4, C3, E5. reflexivity.
Qed.

Lemma chars_concat (cs : list pychar) :
  Forall (fun c => forall rest, chars (snd c ++ rest) = c :: chars rest) cs ->
  chars (List.concat (map snd cs)) = cs.
Proof.
  induction 1 as [|c cs Hc _ IH]; [reflexivity|].
  cbn [map List.concat]. rewrite Hc, IH. reflexivity.
Qed.

Lemma chars_of_only_digits (s : string) :
  chars_of (only_digits s) = filter (fun c => is_decimal (fst c)) (chars_of s).
Proof.
  unfold only_digits, string_of, chars_of at 1.
  rewrite list_ascii_of_string_of_list_ascii.
  apply chars_concat. apply Forall_forall. intros c Hc.
  apply filter_In in Hc. destruct Hc as [Hin Hd].
  pose proof (decimal_encoded (list_ascii_of_string s)) as F.
  rewrite Forall_forall in F. exact (F c Hin Hd).
Qed.

Lemma only_digits_empty (s : string) :
  only_digits s = "" -> filter (fun c => is_decimal (fst c)) (chars_of s) = [].
Proof.
  unfold only_digits. apply string_of_empty.
  apply Forall_forall. intros c Hc. apply filter_In in Hc. destruct Hc as [Hin _].
  pose proof (chars_bytes (list_ascii_of_string s)) as F.
  rewrite Forall_forall in F. exact (F c Hin).
Qed.

Lemma int_digits_decimals (l : list N) :
  Forall (fun c => is_decimal c = true) l ->
  forall after_digit acc count,
    l <> [] \/ after_digit = true ->
    int_digits after_digit acc count l
    = Some (fold_left (fun acc c => match decimal_value c with
                                    | Some d => 10 * acc + d
                                    | None => acc
                                    end) l acc,
            count + Z.of_nat (List.length l)).
Proof.
  induction 1 as [|c l Hc _ IH]; intros after_digit acc count Hne.
  - destruct Hne as [Hne| ->]; [contradiction|].
    cbn [int_digits fold_left List.length]. rewrite Z.add_0_r. reflexivity.
  - cbn [int_digits fold_left List.length]. unfold is_decimal in Hc.
    destruct (decimal_value c) as [d|]; [|discriminate].
    rewrite IH by (right; reflexivity). f_equal. f_equal. lia.
Qed.

Lemma fold_digits (cs : list pychar) (acc : Z) :
  fold_left (fun acc c => match decimal_value c with
                          | Some d => 10 * acc + d
                          | None => acc
                          end)
            (map fst (filter (fun c => is_decimal (fst c)) cs)) acc
  = fold_left (fun acc c => match decimal_value (fst c) with
                            | Some d => 10 * acc + d
                            | None => acc
                            end) cs acc.
Proof.
  revert acc. induction cs as [|c cs IH]; intros acc; [reflexivity|].
  cbn [filter fold_left]. unfold is_decimal at 1.
  destruct (decimal_value (fst c)) as [d|] eqn:E.
  - cbn [map fold_left]. rewrite E. apply IH.
  - apply IH.
Qed.

Lemma to_int_pct_sanitizes (s : string) :
  _to_int_pct (VStr s)
  = if max_str_digits <? digit_count s then Raises ValueError
    else Returns (sanitizePercent s).
Proof.
  unfold _to_int_pct, py_or. cbn [truthy].
  assert (E0 : (if negb (String.eqb s "") then VStr s else VStr "") = VStr s).
  { destruct (String.eqb_spec s "") as [->|]; reflexivity. }
  rewrite E0. clear E0. cbv zeta.
  unfold sanitizePercent, digit_count.
  destruct (String.eqb_spec (only_digits s) "") as [He|Hne].
  - rewrite (only_digits_empty s He). cbn [List.length].
    rewrite <- fold_digits, (only_digits_empty s He). reflexivity.
  - unfold int_of_string. rewrite chars_of_only_digits.
    destruct (filter (fun c => is_decimal (fst c)) (chars_of s)) as [|c cs] eqn:F.
    + exfalso. apply Hne. unfold only_digits. rewrite F. reflexivity.
    + assert (D : Forall (fun c => is_decimal c = true) (map fst (c :: cs))).
      { apply Forall_forall. intros x Hx. apply in_map_iff in Hx.
        destruct Hx as (y & <- & Hy). rewrite <- F in Hy.
        apply filter_In in Hy. exact (proj2 Hy). }
      rewrite <- fold_digits, F.
      cbn [map] in D |- *. inversion D as [|? ? Dc _]; subst.
      destruct (decimal_not_int_space _ Dc) as (S1 & S2 & S3).
      cbn [skip_int_spaces]. rewrite S1, S2, S3.
      rewrite (int_digits_decimals _ D) by (left; discriminate).
      cbn [List.length]. rewrite length_map. rewrite Z.add_0_l. reflexivity.
Qed.

(** ** The forecast reducer *)

Lemma chance_of_rain_found (data rain : value) :
  chance_of_rain data = Some rain ->
  (let* forecasts := subscript data "forecasts" in
   let* today := first forecasts in
   let* rain := subscript today "chanceOfRain" in
   Returns (data, rain))%py = Returns (data, rain).
Proof.
  unfold chance_of_rain. destruct data as [| | | | |l|d]; try discriminate.
  cbn [subscript rbind].
  destruct (lookup "forecasts" d) as [[| | | | |l|d']|]; try discriminate.
  destruct l as [|[| | | | |l'|today] l]; try discriminate.
  cbn [first rbind subscript]. intros ->. reflexivity.
Qed.

Lemma chance_of_rain_missing (data : value) :
  chance_of_rain data = None ->
  exists e,
    (let* forecasts := subscript data "forecasts" in
     let* today := first forecasts in
     let* rain := subscript today "chanceOfRain" in
     Returns (data, rain))%py = Raises e.
Proof.
  unfold chance_of_rain.
  destruct data as [| | | | |l|d]; cbn [subscript rbind]; eauto.
  destruct (lookup "forecasts" d) as [[| | | | s|l|d']|];
    cbn [first rbind subscript]; eauto.
  - destruct (chars_of s); cbn [rbind subscript]; eauto.
  - destruct l as [|[| | | | |l'|today] l]; cbn [rbind subscript]; eauto.
    intros H. rewrite H. cbn [rbind]. eauto.
Qed.







(** C6, as the claim states it, fails: a response with status 300, which
    is not a 2xx status, and a complete forecast is not a failure. *)
Lemma fetch_status_300_is_not_a_failure :
  ~ (200 <= 300 < 300)
  /\ fst (get_today_rain_percent_max_all "130010"
            (World [Reply 300 (Some sample_forecast)] [] []))
     = Returns (70, sample_forecast)
  /\ fst (get_today_rain_percent_max_all "130010"
            (World [Reply 300 (Some sample_forecast)] [] []))
     <> Returns (0, VDict []).
Proof.
  split; [lia|]. split; [vm_compute; reflexivity | vm_compute; discriminate].
Qed.

(** C6 (amended): for every failure of the forecast fetch, that is a
    network error, an HTTP error status (4xx or 5xx), a body that is not
    JSON, or a payload without [forecasts[0].chanceOfRain], the reducer
    returns [(0, {})], logs one error and raises nothing. *)
Theorem fetch_failure_is_absorbed (city : string) (w : world) :
  fetch_fails w ->
  fst (get_today_rain_percent_max_all city w) = Returns (0, VDict [])
  /\ log (snd (get_today_rain_percent_max_all city w))
     = (log w ++ [(ERROR, "Weather API error")])%list.
Proof.
  unfold fetch_fails, get_today_rain_percent_max_all, bind, attempt,
    requests_get, exchange, lift.
  destruct (replies w) as [|[|status body] rest]; intros H.
  - split; reflexivity.
  - split; reflexivity.
  - unfold raise_for_status. cbn [fst].
    destruct ((400 <=? status) && (status <? 600)) eqn:Hs.
    + split; reflexivity.
    + destruct H as [H|H]; [exfalso; lia|].
      destruct body as [data|]; [|split; reflexivity].
      cbn [rbind json snd].
      destruct (chance_of_rain_missing data H) as [e He].
      rewrite He. split; reflexivity.
Qed.

Lemma fetch_failure_is_absorbed_witness :
  fst (get_today_rain_percent_max_all "130010" (World [Reply 503 None] [] []))
    = Returns (0, VDict [])
  /\ log (snd (get_today_rain_percent_max_all "130010" (World [Reply 503 None] [] [])))
     = ([] ++ [(ERROR, "Weather API error")])%list.
Proof.
  apply (fetch_failure_is_absorbed "130010" (World [Reply 503 None] [] [])).
  cbv [fetch_fails replies]. left. lia.
Defined.


(** ** The device command client *)

Lemma post_command_reported (device_id command parameter : string) (w : world) :
  reported (hd NoReply (replies w)) = true ->
  exists r lg,
    post_command device_id command parameter "command" w
    = (Returns r,
       World (tl (replies w))
             (sent w ++ [command_request device_id command parameter]) lg).
Proof.
  unfold post_command, command_request, bind, attempt, requests_post_data,
    exchange, lift, logger, ret, raise.
  cbn [replies sent log].
  destruct (replies w) as [|[|status body] rest]; cbn [hd tl reported]; intros H.
  - eexists _, _. reflexivity.
  - eexists _, _. reflexivity.
  - unfold raise_for_status. cbn [fst].
    destruct ((400 <=? status) && (status <? 600)).
    + eexists _, _. reflexivity.
    + cbn [orb] in H.
      destruct body as [[| | | | | |d]|]; try discriminate H.
      * cbn [snd json get]. destruct (negb (eq_int _ 100)); eexists _, _; reflexivity.
      * eexists _, _. reflexivity.
Qed.

(** C1, as the claim states it, fails: a response whose [statusCode] is
    190 is logged as an error, yet the call returns the decoded response,
    not [None]. *)
Lemma post_command_status_code_190_returns_payload :
  eq_int (status_code [("statusCode", VInt 190)]) 100 = false
  /\ fst (post_command "DEV" "turnOn" "default" "command"
            (World [Reply 200 (Some (VDict [("statusCode", VInt 190)]))] [] []))
     = Returns (Some (VDict [("statusCode", VInt 190)]))
  /\ fst (post_command "DEV" "turnOn" "default" "command"
            (World [Reply 200 (Some (VDict [("statusCode", VInt 190)]))] [] []))
     <> Returns None.
Proof.
  split; [reflexivity|].
  split; [vm_compute; reflexivity | vm_compute; discriminate].
Qed.

(** C1 (amended): [post_command] treats an HTTP error status (4xx or 5xx)
    and a response object whose [statusCode] is not 100 as failures that
    it logs as errors, and raises in neither case; for the HTTP error
    status it returns [None], for the [statusCode] other than 100 it
    returns the decoded response. *)
Theorem post_command_failures
  (device_id command parameter : string) (w : world)
  (status : Z) (body : option value) (rest : list reply) :
  replies w = Reply status body :: rest ->
  (400 <= status < 600 ->
   fst (post_command device_id command parameter "command" w) = Returns None
   /\ log (snd (post_command device_id command parameter "command" w))
      = (log w ++ [(INFO, "POST"); (ERROR, "SwitchBot request error")])%list)
  /\ (forall d : dict,
        ~ (400 <= status < 600) ->
        body = Some (VDict d) ->
        eq_int (status_code d) 100 = false ->
        fst (post_command device_id command parameter "command" w)
          = Returns (Some (VDict d))
        /\ log (snd (post_command device_id command parameter "command" w))
           = (log w ++ [(INFO, "POST"); (ERROR, "SwitchBot error")])%list).
Proof.
  intros Hw.
  unfold post_command, bind, attempt, requests_post_data, exchange, lift,
    logger, ret, raise.
  cbn [replies sent log]. rewrite Hw.
  unfold raise_for_status. cbn [fst].
  split.
  - intros Hs.
    replace ((400 <=? status) && (status <? 600)) with true
      by (symmetry; apply andb_true_iff; split; [apply Z.leb_le | apply Z.ltb_lt]; lia).
    cbn. rewrite <- app_assoc. split; reflexivity.
  - intros d Hs -> Hcode.
    replace ((400 <=? status) && (status <? 600)) with false.
    2:{ symmetry. apply andb_false_iff.
        destruct (Z.leb_spec 400 status); [right|left; reflexivity].
        apply Z.ltb_ge. lia. }
    cbn [snd json get].
    unfold status_code in Hcode. rewrite Hcode.
    cbn. rewrite <- app_assoc. split; reflexivity.
Qed.

Lemma post_command_failures_witness :
  (400 <= 401 < 600
   /\ fst (post_command "DEV" "turnOn" "default" "command"
             (World [Reply 401 None] [] []))
      = Returns None)
  /\ (~ (400 <= 200 < 600)
      /\ eq_int (status_code [("statusCode", VInt 190)]) 100 = false
      /\ fst (post_command "DEV" "turnOn" "default" "command"
                (World [Reply 200 (Some (VDict [("statusCode", VInt 190)]))] [] []))
         = Returns (Some (VDict [("statusCode", VInt 190)]))).
Proof.
  split.
  - split; [lia|].
    refine (proj1 (proj1 (post_command_failures "DEV" "turnOn" "default"
                            (World [Reply 401 None] [] []) 401 None [] _) _)).
    + reflexivity.
    + lia.
  - split; [lia|]. split; [reflexivity|].
    refine (proj1 (proj2 (post_command_failures "DEV" "turnOn" "default"
                            (World [Reply 200 (Some (VDict [("statusCode", VInt 190)]))] [] [])
                            200 (Some (VDict [("statusCode", VInt 190)])) [] _)
                     [("statusCode", VInt 190)] _ _ _)).
    + reflexivity.
    + lia.
    + reflexivity.
    + reflexivity.
Defined.


(** ** The lamp operations *)

Lemma reported_firstn (n : nat) (l : list reply) :
  forallb reported (firstn (S n) l) = true ->
  reported (hd NoReply l) = true /\ forallb reported (firstn n (tl l)) = true.
Proof.
  destruct l as [|r l]; cbn [firstn forallb hd tl].
  - intros _. split; [reflexivity | destruct n; reflexivity].
  - intros H. apply andb_true_iff in H. exact H.
Qed.

Lemma clamp_brightness_range (brightness : value) :
  1 <= clamp_brightness brightness <= 100.
Proof. unfold clamp_brightness. lia. Qed.

Lemma clamp_brightness_default (brightness : value) (e : exn) :
  py_int brightness = Raises e -> clamp_brightness brightness = 100.
Proof. unfold clamp_brightness. intros ->. reflexivity. Qed.

Lemma skip_int_spaces_incl (l : list N) (x : N) :
  In x (skip_int_spaces l) -> In x l.
Proof.
  induction l as [|c l IH]; cbn [skip_int_spaces]; [auto|].
  destruct (int_space c); [|auto].
  intros H. right. exact (IH H).
Qed.

Lemma int_digits_starts_decimal (acc count : Z) (l : list N) (r : Z * Z) :
  int_digits false acc count l = Some r ->
  exists c l', l = c :: l' /\ is_decimal c = true.
Proof.
  destruct l as [|c l']; cbn [int_digits]; [discriminate|].
  destruct (decimal_value c) as [d|] eqn:E.
  - intros _. exists c, l'. split; [reflexivity|].
    unfold is_decimal. rewrite E. reflexivity.
  - rewrite andb_false_r. cbn [andb]. discriminate.
Qed.

(** [int] refuses a string without any decimal digit. *)
Lemma int_of_string_needs_digit (s : string) :
  digit_count s = 0 -> int_of_string s = Raises ValueError.
Proof.
  intros H0.
  assert (Hno : forall x, In x (skip_int_spaces (map fst (chars_of s))) ->
                          is_decimal x = true -> False).
  { intros x Hx Hd. apply skip_int_spaces_incl in Hx.
    apply in_map_iff in Hx. destruct Hx as (c & <- & Hc).
    assert (Hf : In c (filter (fun c => is_decimal (fst c)) (chars_of s)))
      by (apply filter_In; split; assumption).
    unfold digit_count in H0.
    destruct (filter (fun c => is_decimal (fst c)) (chars_of s)); [contradiction|].
    cbn [List.length] in H0. lia. }
  unfold int_of_string.
  destruct (skip_int_spaces (map fst (chars_of s))) as [|c l]; [reflexivity|].
  destruct (c =? 43)%N.
  - destruct (int_digits false 0 0 l) as [[z count]|] eqn:E; [|reflexivity].
    exfalso. destruct (int_digits_starts_decimal _ _ _ _ E) as (x & l' & -> & Hx).
    apply (Hno x); [right; left; reflexivity | exact Hx].
  - destruct (c =? 45)%N.
    + destruct (int_digits false 0 0 l) as [[z count]|] eqn:E; [|reflexivity].
      exfalso. destruct (int_digits_starts_decimal _ _ _ _ E) as (x & l' & -> & Hx).
      apply (Hno x); [right; left; reflexivity | exact Hx].
    + destruct (int_digits false 0 0 (c :: l)) as [[z count]|] eqn:E; [|reflexivity].
      exfalso. destruct (int_digits_starts_decimal _ _ _ _ E) as (x & l' & E' & Hx).
      apply (Hno x); [rewrite E'; left; reflexivity | exact Hx].
Qed.

Lemma clamp_brightness_no_digit (s : string) :
  digit_count s = 0 -> clamp_brightness (VStr s) = 100.
Proof.
  intros H. apply (clamp_brightness_default _ ValueError).
  cbn [py_int]. apply int_of_string_needs_digit. exact H.
Qed.

(** The brightness written in decimal is read back. *)
Lemma clamp_brightness_decimal_text (z : Z) :
  -1000 <= z <= 1000 ->
  clamp_brightness (VStr (str_of_int z)) = clamp 1 100 z.
Proof.
  intros Hz.
  assert (T : forallb
                (fun n => clamp_brightness (VStr (str_of_int (Z.of_nat n - 1000)))
                          =? clamp 1 100 (Z.of_nat n - 1000))
                (seq 0 2001) = true) by (vm_compute; reflexivity).
  rewrite forallb_forall in T.
  specialize (T (Z.to_nat (z + 1000))).
  replace (Z.of_nat (Z.to_nat (z + 1000)) - 1000) with z in T by lia.
  apply Z.eqb_eq. apply T. apply in_seq. lia.
Qed.

Lemma three_commands (device_id c1 p1 c2 p2 c3 p3 : string) (w : world) :
  forallb reported (firstn 3 (replies w)) = true ->
  let run := (post_command device_id c1 p1 "command" ;;
              post_command device_id c2 p2 "command" ;;
              post_command device_id c3 p3 "command" ;;
              ret tt) w in
  fst run = Returns tt
  /\ sent (snd run)
     = (sent w ++ [command_request device_id c1 p1;
                   command_request device_id c2 p2;
                   command_request device_id c3 p3])%list.
Proof.
  intros H.
  apply reported_firstn in H. destruct H as [H1 H].
  destruct (post_command_reported device_id c1 p1 w H1) as (r1 & lg1 & E1).
  set (w1 := World (tl (replies w)) (sent w ++ [command_request device_id c1 p1]) lg1) in *.
  change (tl (replies w)) with (replies w1) in H.
  apply reported_firstn in H. destruct H as [H2 H].
  destruct (post_command_reported device_id c2 p2 w1 H2) as (r2 & lg2 & E2).
  set (w2 := World (tl (replies w1)) (sent w1 ++ [command_request device_id c2 p2]) lg2) in *.
  change (tl (replies w1)) with (replies w2) in H.
  apply reported_firstn in H. destruct H as [H3 _].
  destruct (post_command_reported device_id c3 p3 w2 H3) as (r3 & lg3 & E3).
  unfold bind. rewrite E1, E2, E3. cbn [fst snd ret sent].
  split; [reflexivity|].
  subst w2 w1. cbn [sent]. rewrite <- !app_assoc. reflexivity.
Qed.





(** ** The temperature range *)

Lemma drop_spaces_nil (l : list pychar) :
  drop_spaces l = [] <-> forallb (fun c => is_space (fst c)) l = true.
Proof.
  induction l as [|c l IH]; cbn [drop_spaces forallb].
  - split; reflexivity.
  - destruct (is_space (fst c)); cbn [andb]; [exact IH|].
    split; discriminate.
Qed.

Lemma drop_spaces_head (l : list pychar) :
  match drop_spaces l with
  | [] => True
  | c :: _ => is_space (fst c) = false
  end.
Proof.
  induction l as [|c l IH]; cbn [drop_spaces]; [exact I|].
  destruct (is_space (fst c)) eqn:Hc; [exact IH | exact Hc].
Qed.

Lemma drop_spaces_incl (l : list pychar) (x : pychar) :
  In x (drop_spaces l) -> In x l.
Proof.
  induction l as [|c l IH]; cbn [drop_spaces]; [auto|].
  destruct (is_space (fst c)); [|auto].
  intros H. right. exact (IH H).
Qed.

Lemma strip_blank (s : string) : String.eqb (strip s) "" = blank s.
Proof.
  unfold strip, blank.
  destruct (forallb (fun c => is_space (fst c)) (chars_of s)) eqn:Hb.
  - apply drop_spaces_nil in Hb. rewrite Hb. reflexivity.
  - pose proof (drop_spaces_head (chars_of s)) as Hh.
    pose proof (drop_spaces_incl (chars_of s)) as Hi.
    destruct (drop_spaces (chars_of s)) as [|c l] eqn:Hd.
    + apply drop_spaces_nil in Hd. congruence.
    + pose proof (drop_spaces_incl (rev (c :: l))) as Hi'.
      destruct (drop_spaces (rev (c :: l))) as [|x xs] eqn:Hr.
      * apply drop_spaces_nil in Hr. cbn [rev] in Hr.
        rewrite forallb_app in Hr. cbn [forallb] in Hr.
        rewrite Hh in Hr. rewrite andb_false_r in Hr. discriminate Hr.
      * destruct (String.eqb_spec (string_of (rev (x :: xs))) "") as [E|_];
          [|reflexivity].
        exfalso. apply string_of_empty in E.
        -- apply (f_equal (@List.length pychar)) in E.
           rewrite length_rev in E. discriminate E.
        -- apply Forall_forall. intros y Hy.
           apply in_rev in Hy. apply Hi' in Hy. apply in_rev in Hy. apply Hi in Hy.
           pose proof (chars_bytes (list_ascii_of_string s)) as F.
           rewrite Forall_forall in F. exact (F y Hy).
Qed.

Lemma present_text (s : string) :
  present (VStr s) = Returns (if blank s then None else Some s).
Proof.
  unfold present. cbn [truthy]. rewrite strip_blank.
  destruct (String.eqb_spec s "") as [->|_]; reflexivity.
Qed.

Lemma celsius_entry_present (entry : value) :
  celsius_entry entry ->
  (let* c := celsius entry in present c)%py = Returns (celsius_text entry).
Proof.
  unfold celsius_entry, celsius, celsius_text.
  destruct entry as [| | | | | |d]; try contradiction; [reflexivity|].
  cbn [get rbind].
  destruct (lookup "celsius" d) as [[| | | |s| |]|]; try contradiction; intros _.
  - reflexivity.
  - apply present_text.
  - reflexivity.
Qed.

(** C8, as the claim states it, fails: a minimum that is a single space is
    neither the empty string nor null, yet it counts as absent. *)
Lemma format_temperature_blank_minimum :
  " " <> ""
  /\ format_temperature (VDict [("min", celsius_of " "); ("max", celsius_of "15")])
     = Returns "Max 15C"
  /\ format_temperature (VDict [("min", celsius_of " "); ("max", celsius_of "15")])
     <> Returns " C / 15C".
Proof.
  split; [discriminate|].
  split; [vm_compute; reflexivity | vm_compute; discriminate].
Qed.

(** C8 (amended): for a temperature object with a [min] and a [max] entry,
    each null or an object whose [celsius] is missing, null or a string,
    [format_temperature] returns "{min}C / {max}C" when both values are
    present, "Max {max}C" when only the maximum is, "Min {min}C" when only
    the minimum is, and "--" otherwise, where a null, empty or blank
    value (white space only, that of Unicode included) counts as absent;
    an object without a [min] or without a [max] entry gives "--". *)
Theorem format_temperature_cases (d : dict) :
  (forall lo hi : value,
     lookup "min" d = Some lo ->
     lookup "max" d = Some hi ->
     celsius_entry lo ->
     celsius_entry hi ->
     format_temperature (VDict d)
       = Returns (temperature_range (celsius_text lo) (celsius_text hi)))
  /\ (lookup "min" d = None \/ lookup "max" d = None ->
      format_temperature (VDict d) = Returns "--").
Proof.
  unfold format_temperature. cbn [truthy contains rbind get].
  split.
  - intros lo hi Hlo Hhi Elo Ehi.
    destruct d as [|kv d]; [discriminate Hlo|]. cbn [negb].
    rewrite Hlo, Hhi. cbn [negb].
    pose proof (celsius_entry_present lo Elo) as Plo.
    pose proof (celsius_entry_present hi Ehi) as Phi.
    destruct (celsius lo) as [clo|e]; [|discriminate Plo].
    destruct (celsius hi) as [chi|e]; [|discriminate Phi].
    cbn [rbind] in *. rewrite Plo, Phi. cbn [rbind].
    destruct (celsius_text lo), (celsius_text hi); reflexivity.
  - intros H. destruct d as [|kv d]; [reflexivity|]. cbn [negb].
    destruct (lookup "min" (kv :: d)); cbn [negb]; [|reflexivity].
    destruct H as [H|H]; [discriminate H|]. rewrite H. reflexivity.
Qed.

(** The second minimum is the ideographic space U+3000. *)
Lemma format_temperature_cases_witness :
  celsius_entry (celsius_of "") /\ celsius_entry (celsius_of "15")
  /\ format_temperature (VDict [("min", celsius_of ""); ("max", celsius_of "15")])
     = Returns "Max 15C"
  /\ celsius_entry (celsius_of "　")
  /\ format_temperature (VDict [("min", celsius_of "　"); ("max", celsius_of "15")])
     = Returns "Max 15C".
Proof.
  split; [exact I|]. split; [exact I|].
  split.
  - refine (proj1 (format_temperature_cases
                     [("min", celsius_of ""); ("max", celsius_of "15")])
              (celsius_of "") (celsius_of "15") _ _ _ _).
    + reflexivity.
    + reflexivity.
    + exact I.
    + exact I.
  - split; [exact I|].
    exact (proj1 (format_temperature_cases
                    [("min", celsius_of "　"); ("max", celsius_of "15")])
             (celsius_of "　") (celsius_of "15") eq_refl eq_refl I I).
Defined.


(** ** The notifier *)

Lemma build_discord_embed_empty
  (repr : value -> string) (cfg : config) (weather_data : value) (lamp : lamp_setting) :
  truthy weather_data = false ->
  build_discord_embed repr cfg weather_data lamp = Returns (VDict []).
Proof. unfold build_discord_embed. intros ->. reflexivity. Qed.





(** ** The orchestrator in colour-temperature mode *)

Ltac step_result H :=
  match type of H with
  | context [rbind ?r _] =>
      let E := fresh "E" in
      destruct r eqn:E; cbn [rbind] in H; [|discriminate H]
  end.

Lemma build_discord_embed_orange
  (repr : value -> string) (cfg : config)
  (weather_data : value) (lamp : lamp_setting) (embed : value) :
  rgb lamp = None ->
  build_discord_embed repr cfg weather_data lamp = Returns embed ->
  truthy embed = true ->
  exists e : dict, embed = VDict e /\ lookup "color" e = Some (VInt 16744192).
Proof.
  intros Hrgb Hb Ht. unfold build_discord_embed in Hb.
  destruct (negb (truthy weather_data)).
  - injection Hb as <-. discriminate Ht.
  - rewrite Hrgb in Hb.
    repeat step_result Hb.
    injection Hb as <-. eexists. split; reflexivity.
Qed.

Lemma sent_post_command (device_id command parameter : string) (w : world) :
  sent (snd (post_command device_id command parameter "command" w))
  = (sent w ++ [command_request device_id command parameter])%list.
Proof.
  unfold post_command, command_request, bind, attempt, requests_post_data,
    exchange, lift, logger, ret, raise.
  cbn [replies sent log].
  destruct (replies w) as [|[|status body] rest]; try reflexivity.
  unfold raise_for_status. cbn [fst].
  destruct ((400 <=? status) && (status <? 600)); [reflexivity|].
  destruct body as [[| | | | | |d]|]; try reflexivity.
  cbn [snd json get]. destruct (negb (eq_int _ 100)); reflexivity.
Qed.

Lemma command_request_not_notification (device_id command parameter : string) :
  orange_if_notification (command_request device_id command parameter).
Proof. unfold orange_if_notification, command_request. intros url embed t H. discriminate H. Qed.

Lemma sent_set_lamp_ct (device_id : string) (kelvin : Z) (brightness : value) (w : world) :
  exists new,
    sent (snd (set_lamp_ct device_id kelvin brightness w)) = (sent w ++ new)%list
    /\ Forall orange_if_notification new.
Proof.
  unfold set_lamp_ct, bind.
  pose proof (sent_post_command device_id "setBrightness"
                (str_of_int (clamp_brightness brightness)) w) as S1.
  destruct (post_command device_id "setBrightness" _ "command" w) as [[r1|e1] w1].
  2:{ eexists. split; [exact S1|]. repeat constructor; apply command_request_not_notification. }
  pose proof (sent_post_command device_id "setColorTemperature"
                (str_of_int (Z.max 2700 (Z.min 6500 kelvin))) w1) as S2.
  destruct (post_command device_id "setColorTemperature" _ "command" w1) as [[r2|e2] w2].
  2:{ cbn [snd] in *. rewrite S2, S1, <- app_assoc. eexists. split; [reflexivity|].
      repeat constructor; apply command_request_not_notification. }
  pose proof (sent_post_command device_id "turnOn" "default" w2) as S3.
  destruct (post_command device_id "turnOn" "default" "command" w2) as [[r3|e3] w3];
    cbn [snd ret] in *; rewrite S3, S2, S1, <- !app_assoc;
    eexists; (split; [reflexivity|]);
    repeat constructor; apply command_request_not_notification.
Qed.

Lemma sent_get_today (city : string) (w : world) :
  sent (snd (get_today_rain_percent_max_all city w))
  = (sent w ++ [GET (WEATHER_URL ++ "/" ++ city) HTTP_TIMEOUT])%list.
Proof.
  unfold get_today_rain_percent_max_all, bind, attempt, requests_get, exchange,
    lift, logger, ret.
  destruct (replies w) as [|[|status body] rest]; try reflexivity.
  match goal with
  | |- context [match ?r with Returns _ => _ | Raises _ => _ end] =>
      destruct r as [[data rain]|e]
  end; [|reflexivity].
  match goal with
  | |- context [match ?r with Returns _ => _ | Raises _ => _ end] =>
      destruct r as [[[a b] c]|e]
  end; reflexivity.
Qed.

Lemma sent_notification
  (repr : value -> string) (cfg : config) (usable_url : string -> bool)
  (weather_data : value) (lamp : lamp_setting) (w : world) :
  rgb lamp = None ->
  exists new,
    sent (snd (send_discord_notification repr cfg usable_url weather_data lamp w))
    = (sent w ++ new)%list
    /\ Forall orange_if_notification new.
Proof.
  intros Hrgb. unfold send_discord_notification.
  destruct (DISCORD_ENABLED cfg); cbn [negb].
  2:{ exists []. rewrite app_nil_r. split; [reflexivity | constructor]. }
  destruct (String.eqb (DISCORD_WEBHOOK_URL cfg) "").
  { exists []. rewrite app_nil_r. split; [reflexivity | constructor]. }
  unfold bind, lift.
  destruct (build_discord_embed repr cfg weather_data lamp) as [embed|e] eqn:Hb.
  2:{ exists []. rewrite app_nil_r. split; [reflexivity | constructor]. }
  destruct (truthy embed) eqn:Ht; cbn [negb].
  2:{ exists []. rewrite app_nil_r. split; [reflexivity | constructor]. }
  destruct (build_discord_embed_orange repr cfg weather_data lamp embed Hrgb Hb Ht)
    as (e & -> & Hc).
  unfold attempt, requests_post_json.
  destruct (usable_url _); cbn [negb].
  2:{ exists []. rewrite app_nil_r. split; [reflexivity | constructor]. }
  destruct (serialisable _); cbn [negb].
  2:{ exists []. rewrite app_nil_r. split; [reflexivity | constructor]. }
  destruct (DISCORD_TIMEOUT cfg <=? 0).
  1:{ exists []. rewrite app_nil_r. split; [reflexivity | constructor]. }
  unfold exchange.
  eexists [_]. split.
  - destruct (replies w) as [|[|status body] rest]; try reflexivity.
    unfold raise_for_status. cbn [fst].
    destruct ((400 <=? status) && (status <? 600)); reflexivity.
  - constructor; [|constructor].
    intros url embed t H. injection H as _ <- _. eauto.
Qed.

Lemma main_ct_sent (repr : value -> string) (cfg : config) (usable_url : string -> bool) (w : world) :
  USE_COLOR_TEMPERATURE cfg = true ->
  exists new,
    sent (snd (main repr cfg usable_url w)) = (sent w ++ new)%list
    /\ Forall orange_if_notification new.
Proof.
  intros Hct. unfold main. rewrite Hct. unfold bind at 1.
  pose proof (sent_get_today (CITY_CODE cfg) w) as S0.
  assert (G : orange_if_notification
                (GET (WEATHER_URL ++ "/" ++ CITY_CODE cfg) HTTP_TIMEOUT))
    by (intros url embed t H; discriminate H).
  destruct (get_today_rain_percent_max_all (CITY_CODE cfg) w)
    as [[[rain weather_data]|e] w0]; cbn [snd] in S0.
  2:{ eexists. split; [exact S0|]. repeat constructor; exact G. }
  unfold bind, logger, lift. cbn [replies sent log].
  destruct (map_rain_to_ct rain) as [kelvin|e].
  2:{ eexists. split; [exact S0|]. repeat constructor; exact G. }
  cbn [rgb max_rain].
  match goal with
  | |- context [set_lamp_ct ?d ?k ?b ?x] =>
      destruct (sent_set_lamp_ct d k b x) as (cmds & S1 & F1);
      destruct (set_lamp_ct d k b x) as [[[]|e] w1]
  end; cbn [snd sent] in S1.
  2:{ cbn [snd]. rewrite S1, S0, <- app_assoc. eexists. split; [reflexivity|].
      constructor; [exact G | exact F1]. }
  cbn [ret].
  match goal with
  | |- context [send_discord_notification repr cfg usable_url ?x ?l ?y] =>
      destruct (sent_notification repr cfg usable_url x l y eq_refl) as (post & S2 & F2);
      destruct (send_discord_notification repr cfg usable_url x l y) as [[ok|e] w2]
  end; cbn [snd ret] in *; rewrite S2, S1, S0, <- !app_assoc;
    eexists; (split; [reflexivity|]);
    (constructor; [exact G | apply Forall_app; split; assumption]).
Qed.

Lemma main_ct_pipeline (repr : value -> string) (cfg : config) (usable_url : string -> bool) (w : world) :
  USE_COLOR_TEMPERATURE cfg = true ->
  main repr cfg usable_url w
  = (fetched <- get_today_rain_percent_max_all (CITY_CODE cfg) ;;
     logger INFO "Rain chance used" ;;
     kelvin <- lift (map_rain_to_ct (fst fetched)) ;;
     logger INFO "Set CT" ;;
     set_lamp_ct (DEVICE_ID cfg) kelvin (VInt 100) ;;
     send_discord_notification repr cfg usable_url (snd fetched)
       (LampSetting (Some (fst fetched)) (Some kelvin) None) ;;
     ret true) w.
Proof.
  intros Hct. unfold main. rewrite Hct. unfold bind.
  destruct (get_today_rain_percent_max_all (CITY_CODE cfg) w)
    as [[[rain weather_data]|e] w0]; [|reflexivity].
  unfold logger, lift. cbn [fst snd rgb max_rain ct].
  destruct (map_rain_to_ct rain) as [kelvin|e]; [|reflexivity].
  destruct (set_lamp_ct _ _ _ _) as [[[]|e] w1]; reflexivity.
Qed.

(** C10: with the colour-temperature flag on, whatever the rain level and
    the forecast, a notification that the orchestrator sends carries an
    embed whose colour is 16744192, the decimal of RGB (255,127,0): the
    orchestrator hands the notifier a lamp setting with [max_rain] and
    [ct] and no [rgb] entry, and for a setting without [rgb] the embed
    builder falls back to (255,127,0). *)
Theorem ct_mode_embed_is_orange
  (repr : value -> string) (cfg : config) (usable_url : string -> bool) (w : world) :
  USE_COLOR_TEMPERATURE cfg = true ->
  (forall (url : string) (embed : value) (t : Z),
     In (POST url (VDict [("embeds", VList [embed])]) t)
        (sent (snd (main repr cfg usable_url w))) ->
     In (POST url (VDict [("embeds", VList [embed])]) t) (sent w)
     \/ exists e : dict, embed = VDict e /\ lookup "color" e = Some (VInt 16744192))
  /\ main repr cfg usable_url w
     = (fetched <- get_today_rain_percent_max_all (CITY_CODE cfg) ;;
        logger INFO "Rain chance used" ;;
        kelvin <- lift (map_rain_to_ct (fst fetched)) ;;
        logger INFO "Set CT" ;;
        set_lamp_ct (DEVICE_ID cfg) kelvin (VInt 100) ;;
        send_discord_notification repr cfg usable_url (snd fetched)
          (LampSetting (Some (fst fetched)) (Some kelvin) None) ;;
        ret true) w
  /\ (forall (weather_data : value) (lamp : lamp_setting) (built : value),
        rgb lamp = None ->
        build_discord_embed repr cfg weather_data lamp = Returns built ->
        truthy built = true ->
        exists e : dict, built = VDict e /\ lookup "color" e = Some (VInt 16744192))
  /\ rgb_to_decimal (255, 127, 0) = 16744192.
Proof.
  intros Hct. split; [|split; [|split]].
  - intros url embed t Hin.
    destruct (main_ct_sent repr cfg usable_url w Hct) as (new & S & F).
    rewrite S in Hin. apply in_app_or in Hin. destruct Hin as [Hin|Hin].
    + left. exact Hin.
    + right. rewrite Forall_forall in F. exact (F _ Hin url embed t eq_refl).
  - apply main_ct_pipeline. exact Hct.
  - intros weather_data lamp built. apply build_discord_embed_orange.
  - reflexivity.
Qed.

Lemma ct_mode_embed_is_orange_witness :
  USE_COLOR_TEMPERATURE sample_config = true
  /\ exists url embed t e,
       In (POST url (VDict [("embeds", VList [embed])]) t)
          (sent (snd (main sample_repr sample_config sample_usable sample_world)))
       /\ embed = VDict e
       /\ lookup "color" e = Some (VInt 16744192).
Proof.
  split; [reflexivity|].
  pose proof (proj1 (ct_mode_embed_is_orange sample_repr sample_config sample_usable sample_world
                       eq_refl)) as H.
  assert (Hin : exists url embed t,
             In (POST url (VDict [("embeds", VList [embed])]) t)
                (sent (snd (main sample_repr sample_config sample_usable sample_world)))).
  { eexists _, _, _. vm_compute. do 4 right. left. reflexivity. }
  destruct Hin as (url & embed & t & Hin).
  destruct (H url embed t Hin) as [[]|(e & He & Hc)].
  exists url, embed, t, e.
  split; [exact Hin | split; [exact He | exact Hc]].
Defined.


(** * Further properties of the code *)

Lemma Returns_inj (A : Type) (a b : A) : Returns a = Returns b -> a = b.
Proof. intros H. inversion H. reflexivity. Qed.

(** ** Colours *)

(** X1: for channels in 0..255 the Discord colour value lies in
    0..16777215 and the three channels can be read back from it with
    shifts and masks, so two different colours never share a value. *)
Theorem rgb_to_decimal_round_trip (r g b : Z) :
  channel r -> channel g -> channel b ->
  0 <= rgb_to_decimal (r, g, b) <= 16777215
  /\ decimal_to_rgb (rgb_to_decimal (r, g, b)) = (r, g, b).
Proof.
  unfold channel, rgb_to_decimal, decimal_to_rgb. intros Hr Hg Hb.
  rewrite !Z.shiftl_mul_pow2 by lia.
  rewrite !Z.shiftr_div_pow2 by lia.
  change 255 with (Z.ones 8). rewrite !Z.land_ones by lia.
  change (2 ^ 16) with 65536. change (2 ^ 8) with 256.
  assert (E1 : (r * 65536 + g * 256 + b) / 65536 = r).
  { symmetry. apply (Z.div_unique _ _ r (g * 256 + b)); lia. }
  assert (E2 : (r * 65536 + g * 256 + b) / 256 = r * 256 + g).
  { symmetry. apply (Z.div_unique _ _ (r * 256 + g) b); lia. }
  assert (E3 : (r * 256 + g) mod 256 = g).
  { symmetry. apply (Z.mod_unique _ _ r g); lia. }
  assert (E4 : (r * 65536 + g * 256 + b) mod 256 = b).
  { symmetry. apply (Z.mod_unique _ _ (r * 256 + g) b); lia. }
  rewrite E1, E2, E3, E4. split; [lia | reflexivity].
Qed.

Lemma rgb_to_decimal_round_trip_witness :
  channel 0 /\ channel 127 /\ channel 255
  /\ decimal_to_rgb (rgb_to_decimal (0, 127, 255)) = (0, 127, 255).
Proof.
  assert (H0 : channel 0) by (unfold channel; lia).
  assert (H1 : channel 127) by (unfold channel; lia).
  assert (H2 : channel 255) by (unfold channel; lia).
  split; [exact H0|]. split; [exact H1|]. split; [exact H2|].
  exact (proj2 (rgb_to_decimal_round_trip 0 127 255 H0 H1 H2)).
Defined.

(** X2: every colour that [map_rain_to_rgb] returns has its channels in
    0..255, so the clamp of [set_lamp_rgb] leaves it as it is; outside the
    percent range the chain of comparisons still answers: a negative level
    is yellow, a level above 100 is deep blue. *)
Theorem map_rain_to_rgb_out_of_range (level : Z) :
  (let '(r, g, b) := map_rain_to_rgb level in
   channel r /\ channel g /\ channel b
   /\ (clamp 0 255 r, clamp 0 255 g, clamp 0 255 b) = map_rain_to_rgb level)
  /\ (level < 0 -> map_rain_to_rgb level = (255, 255, 0))
  /\ (100 < level -> map_rain_to_rgb level = (0, 0, 255)).
Proof.
  unfold map_rain_to_rgb, channel, clamp.
  repeat match goal with
         | |- context [?x =? ?y] => destruct (Z.eqb_spec x y)
         | |- context [?x <=? ?y] => destruct (Z.leb_spec x y)
         end;
    (split; [repeat split; lia | split; intros; (lia || reflexivity)]).
Qed.

Lemma map_rain_to_rgb_out_of_range_witness :
  -3 < 0 /\ map_rain_to_rgb (-3) = (255, 255, 0).
Proof.
  split; [lia|].
  apply (proj1 (proj2 (map_rain_to_rgb_out_of_range (-3)))). lia.
Defined.

(** X3: [map_rain_to_ct] never raises and its result always lies in
    2700..6500, so the clamp of [set_lamp_ct] leaves it as it is; levels
    at or below 0 give 2700, levels at or above 100 give 6500, and between
    0 and 100 a larger level gives a strictly larger temperature. *)
Theorem map_rain_to_ct_range (level : Z) :
  exists kelvin,
    map_rain_to_ct level = Returns kelvin
    /\ 2700 <= kelvin <= 6500
    /\ clamp 2700 6500 kelvin = kelvin
    /\ (level <= 0 -> kelvin = 2700)
    /\ (100 <= level -> kelvin = 6500)
    /\ (forall level' kelvin',
          0 <= level < level' -> level' <= 100 ->
          map_rain_to_ct level' = Returns kelvin' -> kelvin < kelvin').
Proof.
  exists (2700 + 38 * clamp 0 100 level).
  split; [apply map_rain_to_ct_closed_form|].
  unfold clamp. repeat split; try lia.
  intros level' kelvin' H1 H2 H3.
  rewrite map_rain_to_ct_closed_form in H3. apply Returns_inj in H3.
  unfold clamp in H3. lia.
Qed.

Lemma map_rain_to_ct_range_witness :
  exists kelvin,
    map_rain_to_ct 150 = Returns kelvin /\ (100 <= 150 -> kelvin = 6500).
Proof.
  destruct (map_rain_to_ct_range 150) as (k & H1 & _ & _ & _ & H2 & _).
  exists k. split; [exact H1 | exact H2].
Defined.


(** ** The forecast reducer, continued *)

Lemma fold_digits_nonneg (cs : list pychar) (acc : Z) :
  0 <= acc ->
  0 <= fold_left (fun acc c => match decimal_value (fst c) with
                               | Some d => 10 * acc + d
                               | None => acc
                               end) cs acc.
Proof.
  revert acc. induction cs as [|c cs IH]; intros acc Hacc; [exact Hacc|].
  cbn [fold_left]. apply IH.
  destruct (decimal_value (fst c)) as [d|] eqn:E; [|exact Hacc].
  pose proof (decimal_value_range _ _ E). lia.
Qed.

Lemma sanitizePercent_nonneg (s : string) : 0 <= sanitizePercent s.
Proof.
  unfold sanitizePercent. apply fold_digits_nonneg. lia.
Qed.

Lemma slot_percent_nonneg (rain : dict) (k : string) : 0 <= slot_percent rain k.
Proof.
  unfold slot_percent.
  destruct (lookup k rain) as [[| | | |s| |]|]; try lia. apply sanitizePercent_nonneg.
Qed.

(** X4: the sanitiser over every kind of value: a value that is false
    (null, "", 0, an empty list or dict) gives 0; a value that is true and
    not a string raises TypeError; a string gives the number that its
    decimal digits denote, those of Unicode included, unless it has more
    than 4300 of them, when ValueError is raised; nothing else is raised,
    and a result is never negative, a minus sign being stripped with the
    other non-digits. *)
Theorem to_int_pct_cases (v : value) :
  (truthy v = false -> _to_int_pct v = Returns 0)
  /\ (truthy v = true -> (forall s, v <> VStr s) -> _to_int_pct v = Raises TypeError)
  /\ (forall s, v = VStr s ->
        _to_int_pct v = if max_str_digits <? digit_count s then Raises ValueError
                        else Returns (sanitizePercent s))
  /\ (forall z, _to_int_pct v = Returns z -> 0 <= z)
  /\ (forall e, _to_int_pct v = Raises e -> e = TypeError \/ e = ValueError)
  /\ _to_int_pct (VStr "-5%") = Returns 5
  /\ _to_int_pct (VStr "４０％") = Returns 40.
Proof.
  split; [|split; [|split; [|split; [|split; [|split]]]]].
  - unfold _to_int_pct, py_or. intros ->. reflexivity.
  - unfold _to_int_pct, py_or. intros -> H.
    destruct v; try reflexivity. exfalso. eapply H. reflexivity.
  - intros s ->. apply to_int_pct_sanitizes.
  - intros z Hz. destruct (truthy v) eqn:Ht.
    + destruct v as [| | | |s| |];
        try (unfold _to_int_pct, py_or in Hz; rewrite Ht in Hz; discriminate Hz).
      rewrite to_int_pct_sanitizes in Hz.
      destruct (max_str_digits <? digit_count s); [discriminate Hz|].
      apply Returns_inj in Hz. subst z.
      apply sanitizePercent_nonneg.
    + unfold _to_int_pct, py_or in Hz. rewrite Ht in Hz.
      apply Returns_inj in Hz. subst z. cbn. lia.
  - intros e He. destruct (truthy v) eqn:Ht.
    + destruct v as [| | | |s| |];
        try (unfold _to_int_pct, py_or in He; rewrite Ht in He;
             left; congruence).
      rewrite to_int_pct_sanitizes in He.
      destruct (max_str_digits <? digit_count s); [|discriminate He].
      right. congruence.
    + unfold _to_int_pct, py_or in He. rewrite Ht in He. discriminate He.
  - vm_compute. reflexivity.
  - vm_compute. reflexivity.
Qed.

Lemma to_int_pct_cases_witness :
  truthy (VInt 40) = true /\ _to_int_pct (VInt 40) = Raises TypeError.
Proof.
  split; [reflexivity|].
  apply (proj1 (proj2 (to_int_pct_cases (VInt 40)))); [reflexivity|].
  intros s H. discriminate H.
Defined.

Lemma slot_step (rain : dict) (k : string) (B : Type) (K : Z -> result B) :
  (let* s := get (VDict rain) k (VStr "") in
   let* pct := _to_int_pct s in
   K pct)%py
  = match slot_error rain k with
    | Some e => Raises e
    | None => K (slot_percent rain k)
    end.
Proof.
  unfold slot_error, slot_percent. cbn [get rbind].
  destruct (lookup k rain) as [x|]; [|reflexivity].
  destruct x as [| | | |s| |]; try reflexivity;
    try (unfold _to_int_pct, py_or;
         match goal with |- context [truthy ?x] => destruct (truthy x) end;
         reflexivity).
  rewrite to_int_pct_sanitizes.
  destruct (max_str_digits <? digit_count s); reflexivity.
Qed.

Lemma get_today_decoded
  (city : string) (w : world) (status : Z) (data v : value) (rest : list reply) :
  replies w = Reply status (Some data) :: rest ->
  ~ (400 <= status < 600) ->
  chance_of_rain data = Some v ->
  fst (get_today_rain_percent_max_all city w)
  = match v with
    | VDict rain =>
        match slots_error rain with
        | Some e => Raises e
        | None => Returns (rain_level rain, data)
        end
    | _ => Raises AttributeError
    end.
Proof.
  intros Hw Hs Hv.
  unfold get_today_rain_percent_max_all, bind, attempt, requests_get, exchange, lift.
  rewrite Hw. unfold raise_for_status. cbn [fst].
  replace ((400 <=? status) && (status <? 600)) with false.
  2:{ symmetry. apply andb_false_iff.
      destruct (Z.leb_spec 400 status); [right|left; reflexivity].
      apply Z.ltb_ge. lia. }
  cbn [rbind json snd].
  rewrite (chance_of_rain_found data v Hv).
  destruct v as [| | | | | |rain]; try reflexivity.
  rewrite !slot_step. unfold slots_error.
  destruct (slot_error rain "T06_12"); [reflexivity|].
  destruct (slot_error rain "T12_18"); [reflexivity|].
  destruct (slot_error rain "T18_24"); reflexivity.
Qed.

Lemma get_today_failed (city : string) (w : world) :
  fetch_fails w ->
  fst (get_today_rain_percent_max_all city w) = Returns (0, VDict []).
Proof.
  unfold fetch_fails, get_today_rain_percent_max_all, bind, attempt,
    requests_get, exchange, lift.
  destruct (replies w) as [|[|status body] rest]; intros H; try reflexivity.
  unfold raise_for_status. cbn [fst].
  destruct ((400 <=? status) && (status <? 600)) eqn:Hs; [reflexivity|].
  destruct H as [H|H]; [exfalso; lia|].
  destruct body as [data|]; [|reflexivity].
  cbn [rbind json snd].
  destruct (chance_of_rain_missing data H) as [e He].
  rewrite He. reflexivity.
Qed.

(** X5: whenever the reducer returns, the level is not negative, and the
    pair is one of two things: the failure marker [(0, {})], exactly in
    the cases where the fetch failed, or the decoded body of the reply
    together with the largest of its three daytime slots. *)
Theorem get_today_result_shape
  (city : string) (w : world) (level : Z) (data : value) :
  fst (get_today_rain_percent_max_all city w) = Returns (level, data) ->
  0 <= level
  /\ ((fetch_fails w /\ level = 0 /\ data = VDict [])
      \/ (exists status rest rain,
            replies w = Reply status (Some data) :: rest
            /\ ~ (400 <= status < 600)
            /\ chance_of_rain data = Some (VDict rain)
            /\ level = rain_level rain)).
Proof.
  intros H.
  assert (Hfail : fetch_fails w -> 0 <= level
            /\ ((fetch_fails w /\ level = 0 /\ data = VDict [])
                \/ (exists status rest rain,
                      replies w = Reply status (Some data) :: rest
                      /\ ~ (400 <= status < 600)
                      /\ chance_of_rain data = Some (VDict rain)
                      /\ level = rain_level rain))).
  { intros Hf. rewrite (get_today_failed city w Hf) in H.
    apply Returns_inj in H. inversion H; subst.
    split; [lia | left; auto]. }
  destruct (replies w) as [|[|status body] rest] eqn:Hw;
    try (apply Hfail; unfold fetch_fails; rewrite Hw; exact I).
  destruct (Z_le_dec 400 status) as [H4|H4].
  - destruct (Z_lt_dec status 600) as [H6|H6].
    + apply Hfail. unfold fetch_fails. rewrite Hw. left. lia.
    + destruct body as [body|];
        [|apply Hfail; unfold fetch_fails; rewrite Hw; right; exact I].
      destruct (chance_of_rain body) as [v|] eqn:Hv;
        [|apply Hfail; unfold fetch_fails; rewrite Hw; right; exact Hv].
      rewrite (get_today_decoded city w status body v rest Hw) in H by (lia || exact Hv).
      destruct v as [| | | | | |rain]; try discriminate H.
      destruct (slots_error rain); [discriminate H|].
      apply Returns_inj in H. inversion H; subst.
      split.
      * unfold rain_level. pose proof (slot_percent_nonneg rain "T06_12"). lia.
      * right. exists status, rest, rain. repeat split; try lia. exact Hv.
  - destruct body as [body|];
      [|apply Hfail; unfold fetch_fails; rewrite Hw; right; exact I].
    destruct (chance_of_rain body) as [v|] eqn:Hv;
      [|apply Hfail; unfold fetch_fails; rewrite Hw; right; exact Hv].
    rewrite (get_today_decoded city w status body v rest Hw) in H by (lia || exact Hv).
    destruct v as [| | | | | |rain]; try discriminate H.
    destruct (slots_error rain); [discriminate H|].
    apply Returns_inj in H. inversion H; subst.
    split.
    + unfold rain_level. pose proof (slot_percent_nonneg rain "T06_12"). lia.
    + right. exists status, rest, rain. repeat split; try lia. exact Hv.
Qed.

Lemma get_today_result_shape_witness :
  fst (get_today_rain_percent_max_all "130010"
         (World [Reply 200 (Some sample_forecast)] [] []))
    = Returns (70, sample_forecast)
  /\ 0 <= 70.
Proof.
  assert (H : fst (get_today_rain_percent_max_all "130010"
                     (World [Reply 200 (Some sample_forecast)] [] []))
              = Returns (70, sample_forecast)) by (vm_compute; reflexivity).
  split; [exact H|].
  exact (proj1 (get_today_result_shape "130010"
                  (World [Reply 200 (Some sample_forecast)] [] [])
                  70 sample_forecast H)).
Defined.

(** X6: what is raised after the [try] block is not absorbed.  When the
    reply decodes and holds [forecasts[0].chanceOfRain], a [chanceOfRain]
    that is not an object (null, say) makes the reducer raise
    AttributeError; otherwise the first of the slots T06_12, T12_18,
    T18_24 that the sanitiser refuses decides: a true value other than a
    string (the number 40, say) raises TypeError, a string of more than
    4300 digits raises ValueError; and when no slot is refused the reducer
    returns the level with the decoded body. *)
Theorem get_today_raises_after_try
  (city : string) (w : world) (status : Z) (data : value) (rest : list reply) :
  replies w = Reply status (Some data) :: rest ->
  ~ (400 <= status < 600) ->
  (forall v,
     chance_of_rain data = Some v ->
     (forall rain, v <> VDict rain) ->
     fst (get_today_rain_percent_max_all city w) = Raises AttributeError)
  /\ (forall rain e,
        chance_of_rain data = Some (VDict rain) ->
        slots_error rain = Some e ->
        fst (get_today_rain_percent_max_all city w) = Raises e)
  /\ (forall rain,
        chance_of_rain data = Some (VDict rain) ->
        slots_error rain = None ->
        fst (get_today_rain_percent_max_all city w) = Returns (rain_level rain, data))
  /\ (forall rain,
        chance_of_rain data = Some (VDict rain) ->
        slot_rejected rain "T06_12" = true ->
        fst (get_today_rain_percent_max_all city w) = Raises TypeError).
Proof.
  intros Hw Hs. split; [|split; [|split]].
  - intros v Hv Hnot. rewrite (get_today_decoded city w status data v rest Hw Hs Hv).
    destruct v; try reflexivity. exfalso. eapply Hnot. reflexivity.
  - intros rain e Hv Hr.
    rewrite (get_today_decoded city w status data _ rest Hw Hs Hv), Hr. reflexivity.
  - intros rain Hv Hr.
    rewrite (get_today_decoded city w status data _ rest Hw Hs Hv), Hr. reflexivity.
  - intros rain Hv Hr.
    rewrite (get_today_decoded city w status data _ rest Hw Hs Hv).
    unfold slots_error, slot_error. unfold slot_rejected in Hr.
    destruct (lookup "T06_12" rain) as [x|]; [|discriminate Hr].
    destruct x; try discriminate Hr; rewrite Hr; reflexivity.
Qed.

Lemma get_today_raises_after_try_witness :
  fst (get_today_rain_percent_max_all "130010" (World [Reply 200 (Some null_rain)] [] []))
    = Raises AttributeError
  /\ fst (get_today_rain_percent_max_all "130010"
            (World [Reply 200 (Some number_rain)] [] []))
     = Raises TypeError.
Proof.
  split.
  - refine (proj1 (get_today_raises_after_try "130010"
                     (World [Reply 200 (Some null_rain)] [] []) 200 null_rain []
                     eq_refl _) VNone eq_refl _).
    + lia.
    + intros rain H. discriminate H.
  - refine (proj1 (proj2 (get_today_raises_after_try "130010"
                            (World [Reply 200 (Some number_rain)] [] []) 200 number_rain []
                            eq_refl _)) [("T06_12", VInt 40)] TypeError eq_refl eq_refl).
    lia.
Defined.

(** X7: whatever the network answers, and whether the reducer returns or
    raises, it sends exactly one request, the GET of the city's forecast
    with the 10 second timeout, and uses up exactly one reply: there is no
    retry. *)
Theorem get_today_one_request (city : string) (w : world) :
  after_request (GET (WEATHER_URL ++ "/" ++ city) 10) w
    (snd (get_today_rain_percent_max_all city w)).
Proof.
  unfold after_request, get_today_rain_percent_max_all, bind, attempt,
    requests_get, exchange, lift, logger, ret.
  destruct (replies w) as [|[|status body] rest]; try (split; reflexivity).
  match goal with
  | |- context [match ?r with Returns _ => _ | Raises _ => _ end] =>
      destruct r as [[data rain]|e]
  end; [|split; reflexivity].
  match goal with
  | |- context [match ?r with Returns _ => _ | Raises _ => _ end] =>
      destruct r as [[[a b] c]|e]
  end; split; reflexivity.
Qed.


(** ** The device command client, continued *)

Lemma error_status_false (status : Z) :
  ~ (400 <= status < 600) -> (400 <=? status) && (status <? 600) = false.
Proof.
  intros H. apply andb_false_iff.
  destruct (Z.leb_spec 400 status); [right|left; reflexivity].
  apply Z.ltb_ge. lia.
Qed.

Lemma error_status_true (status : Z) :
  400 <= status < 600 -> (400 <=? status) && (status <? 600) = true.
Proof.
  intros H. apply andb_true_iff. split; [apply Z.leb_le | apply Z.ltb_lt]; lia.
Qed.

Lemma post_command_unreported (device_id command parameter : string) (w : world) :
  reported (hd NoReply (replies w)) = false ->
  post_command device_id command parameter "command" w
  = (Raises AttributeError,
     World (tl (replies w))
           (sent w ++ [command_request device_id command parameter])
           (log w ++ [(INFO, "POST")])).
Proof.
  unfold post_command, command_request, bind, attempt, requests_post_data,
    exchange, lift, logger, ret, raise.
  cbn [replies sent log].
  destruct (replies w) as [|[|status body] rest]; cbn [hd tl reported]; intros H;
    try discriminate H.
  unfold raise_for_status. cbn [fst].
  apply orb_false_iff in H. destruct H as [Hs Hb]. rewrite Hs.
  destruct body as [[| | | | | |d]|]; try discriminate Hb; reflexivity.
Qed.



Lemma post_command_eval (device_id command parameter : string) (w : world) :
  post_command device_id command parameter "command" w
  = let after lg :=
      World (tl (replies w))
            (sent w ++ [command_request device_id command parameter])
            (log w ++ (INFO, "POST") :: lg) in
    match replies w with
    | Reply status body :: _ =>
        if (400 <=? status) && (status <? 600)
        then (Returns None, after [(ERROR, "SwitchBot request error")])
        else
          match body with
          | None => (Returns None, after [(ERROR, "SwitchBot request error")])
          | Some (VDict d) =>
              (Returns (Some (VDict d)),
               after [if eq_int (status_code d) 100
                      then (INFO, "SwitchBot OK")
                      else (ERROR, "SwitchBot error")])
          | Some _ => (Raises AttributeError, after [])
          end
    | _ => (Returns None, after [(ERROR, "SwitchBot request error")])
    end.
Proof.
  unfold post_command, command_request, bind, attempt, requests_post_data,
    exchange, lift, logger, ret, raise, status_code.
  cbn [replies sent log].
  destruct (replies w) as [|[|status body] rest];
    cbn [fst snd is_RequestException replies sent log];
    rewrite <- ?app_assoc; try reflexivity.
  unfold raise_for_status. cbn [fst].
  destruct ((400 <=? status) && (status <? 600));
    cbn [fst snd is_RequestException replies sent log];
    rewrite <- ?app_assoc; try reflexivity.
  destruct body as [[| | | | | |d]|];
    cbn [fst snd json get is_RequestException replies sent log];
    rewrite <- ?app_assoc; try reflexivity.
  destruct (lookup "statusCode" d) as [v|];
    match goal with |- context [eq_int ?x 100] => destruct (eq_int x 100) end;
    cbn [negb fst snd replies sent log]; rewrite <- ?app_assoc; reflexivity.
Qed.

(** X9: [post_command] returns a payload exactly when the reply has a
    status outside 4xx/5xx and a JSON object as body, and the payload is
    that object, whatever its [statusCode]; when the [statusCode] is 100
    the call is logged as a success. *)
Theorem post_command_returns_payload_iff
  (device_id command parameter : string) (w : world) :
  (forall p : value,
     fst (post_command device_id command parameter "command" w) = Returns (Some p)
     <-> exists status rest d,
           replies w = Reply status (Some p) :: rest
           /\ p = VDict d
           /\ ~ (400 <= status < 600))
  /\ (forall status d rest,
        replies w = Reply status (Some (VDict d)) :: rest ->
        ~ (400 <= status < 600) ->
        eq_int (status_code d) 100 = true ->
        log (snd (post_command device_id command parameter "command" w))
        = (log w ++ [(INFO, "POST"); (INFO, "SwitchBot OK")])%list).
Proof.
  rewrite post_command_eval. cbv zeta.
  split.
  - intros p. split.
    + destruct (replies w) as [|[|status body] rest];
        try (cbn [fst]; intros H; discriminate H).
      destruct (Z_le_dec 400 status) as [H4|H4];
        [destruct (Z_lt_dec status 600) as [H6|H6]|].
      * rewrite (error_status_true status (conj H4 H6)).
        cbn [fst]. intros H. discriminate H.
      * rewrite error_status_false by lia.
        destruct body as [[| | | | | |d]|];
          cbn [fst]; intros H; try discriminate H.
        apply Returns_inj in H. inversion H; subst.
        exists status, rest, d. repeat split; lia.
      * rewrite error_status_false by lia.
        destruct body as [[| | | | | |d]|];
          cbn [fst]; intros H; try discriminate H.
        apply Returns_inj in H. inversion H; subst.
        exists status, rest, d. repeat split; lia.
    + intros (status & rest & d & Hw & -> & Hs). rewrite Hw.
      rewrite (error_status_false status Hs). reflexivity.
  - intros status d rest Hw Hs Hc. rewrite Hw.
    rewrite (error_status_false status Hs). rewrite Hc. reflexivity.
Qed.

Lemma post_command_returns_payload_iff_witness :
  eq_int (status_code [("statusCode", VInt 100)]) 100 = true
  /\ log (snd (post_command "DEV" "turnOn" "default" "command"
                 (World [Reply 200 (Some (VDict [("statusCode", VInt 100)]))] [] [])))
     = [(INFO, "POST"); (INFO, "SwitchBot OK")].
Proof.
  split; [reflexivity|].
  refine (proj2 (post_command_returns_payload_iff "DEV" "turnOn" "default"
                   (World [Reply 200 (Some (VDict [("statusCode", VInt 100)]))] [] []))
            200 [("statusCode", VInt 100)] [] eq_refl _ eq_refl).
  lia.
Defined.

(** ** The lamp operations, continued *)

(** X10: the lamp operations have no guard of their own: when the reply
    to setBrightness makes [post_command] raise (a JSON body that is not
    an object, status outside 4xx/5xx), [set_lamp_rgb] and [set_lamp_ct]
    raise AttributeError themselves and neither the colour command nor
    turnOn is sent. *)
Theorem set_lamp_stops_when_post_command_raises
  (device_id : string) (r g b kelvin : Z) (brightness : value) (w : world) :
  reported (hd NoReply (replies w)) = false ->
  (fst (set_lamp_rgb device_id (r, g, b) brightness w) = Raises AttributeError
   /\ sent (snd (set_lamp_rgb device_id (r, g, b) brightness w))
      = (sent w ++ [command_request device_id "setBrightness"
                      (str_of_int (clamp_brightness brightness))])%list)
  /\ (fst (set_lamp_ct device_id kelvin brightness w) = Raises AttributeError
      /\ sent (snd (set_lamp_ct device_id kelvin brightness w))
         = (sent w ++ [command_request device_id "setBrightness"
                         (str_of_int (clamp_brightness brightness))])%list).
Proof.
  intros H. unfold set_lamp_rgb, set_lamp_ct, bind.
  rewrite (post_command_unreported device_id "setBrightness" _ w H).
  repeat split.
Qed.

Lemma set_lamp_stops_when_post_command_raises_witness :
  sent (snd (set_lamp_rgb "DEV" (0, 127, 255) (VInt 100)
               (World [Reply 200 (Some (VList []))] [] [])))
  = [command_request "DEV" "setBrightness" "100"].
Proof.
  exact (proj2 (proj1 (set_lamp_stops_when_post_command_raises "DEV" 0 127 255 0
                         (VInt 100) (World [Reply 200 (Some (VList []))] [] [])
                         eq_refl))).
Defined.

(** X11: [clamp_brightness] is idempotent, leaves an integer between 1 and
    100 as it is, and is monotone on integers; a text that [int] reads is
    used, clamped (" 50 " is 50, the full-width "５０" is 50, and the
    decimal text of an integer gives that integer back); a text that
    [int] refuses counts as 100, as does every text without a digit
    ("bad") and [None]. *)
Theorem clamp_brightness_idempotent (v : value) :
  clamp_brightness (VInt (clamp_brightness v)) = clamp_brightness v
  /\ (forall z, 1 <= z <= 100 -> clamp_brightness (VInt z) = z)
  /\ (forall a b, a <= b -> clamp_brightness (VInt a) <= clamp_brightness (VInt b))
  /\ (forall s z, v = VStr s -> int_of_string s = Returns z ->
                  clamp_brightness v = clamp 1 100 z)
  /\ (forall s e, v = VStr s -> int_of_string s = Raises e -> clamp_brightness v = 100)
  /\ (forall s, v = VStr s -> digit_count s = 0 -> clamp_brightness v = 100)
  /\ (forall z, -1000 <= z <= 1000 -> v = VStr (str_of_int z) ->
                clamp_brightness v = clamp 1 100 z)
  /\ clamp_brightness (VStr " 50 ") = 50
  /\ clamp_brightness (VStr "５０") = 50
  /\ clamp_brightness (VStr "bad") = 100
  /\ clamp_brightness VNone = 100.
Proof.
  split; [|split; [|split; [|split; [|split; [|split; [|split; [|split; [|split;
    [|split]]]]]]]]].
  - pose proof (clamp_brightness_range v) as Hr.
    generalize dependent (clamp_brightness v). intros z Hz.
    unfold clamp_brightness. cbn [py_int]. lia.
  - intros z Hz. unfold clamp_brightness. cbn [py_int]. lia.
  - intros a b Hab. unfold clamp_brightness. cbn [py_int]. lia.
  - intros s z -> Hz. unfold clamp_brightness, clamp. cbn [py_int].
    rewrite Hz. reflexivity.
  - intros s e -> He. unfold clamp_brightness. cbn [py_int].
    rewrite He. reflexivity.
  - intros s -> Hs. apply clamp_brightness_no_digit. exact Hs.
  - intros z Hz ->. apply clamp_brightness_decimal_text. exact Hz.
  - vm_compute. reflexivity.
  - vm_compute. reflexivity.
  - vm_compute. reflexivity.
  - vm_compute. reflexivity.
Qed.

Lemma clamp_brightness_idempotent_witness :
  1 <= 42 <= 100 /\ clamp_brightness (VInt 42) = 42.
Proof.
  split; [lia|].
  apply (proj1 (proj2 (clamp_brightness_idempotent VNone))). lia.
Defined.


(** ** The temperature range, continued *)

(** X12: edges of [format_temperature].  A temperature that is false
    (null, an empty object, 0, "") gives "--".  A [celsius] that is a
    number rather than a string is not tolerated: with both entries there
    and a [min] object whose [celsius] is a true value other than a
    string, the function raises AttributeError. *)
Theorem format_temperature_edges (temp : value) :
  (truthy temp = false -> format_temperature temp = Returns "--")
  /\ (forall (d lo : dict) (hi c : value),
        temp = VDict d ->
        lookup "min" d = Some (VDict lo) ->
        lookup "max" d = Some hi ->
        lookup "celsius" lo = Some c ->
        truthy c = true ->
        (forall s, c <> VStr s) ->
        format_temperature temp = Raises AttributeError).
Proof.
  split.
  - unfold format_temperature. intros ->. reflexivity.
  - intros d lo hi c -> Hlo Hhi Hc Ht Hns.
    unfold format_temperature. cbn [truthy contains rbind get].
    destruct d as [|kv d]; [discriminate Hlo|]. cbn [negb].
    rewrite Hlo, Hhi. cbn [negb celsius get rbind]. rewrite Hc.
    assert (Hhic : exists x, celsius hi = Returns x).
    { destruct hi; cbn [celsius get]; eauto. }
    destruct Hhic as [x ->]. cbn [rbind].
    unfold present. rewrite Ht.
    destruct c; try reflexivity. exfalso. eapply Hns. reflexivity.
Qed.

Lemma format_temperature_edges_witness :
  truthy (VInt 9) = true
  /\ format_temperature
       (VDict [("min", VDict [("celsius", VInt 9)]); ("max", celsius_of "15")])
     = Raises AttributeError.
Proof.
  split; [reflexivity|].
  refine (proj2 (format_temperature_edges _)
            [("min", VDict [("celsius", VInt 9)]); ("max", celsius_of "15")]
            [("celsius", VInt 9)] (celsius_of "15") (VInt 9)
            eq_refl eq_refl eq_refl eq_refl eq_refl _).
  intros s H. discriminate H.
Defined.

(** ** The notification builder *)

Lemma details_of_forecast (weather_data fs fc dt : value) (l : list value) :
  get weather_data "forecasts" (VList [VDict []]) = Returns fs ->
  first fs = Returns fc ->
  get fc "detail" (VDict []) = Returns dt ->
  (if truthy dt
   then (let* wd := get dt "weatherDetail" (VStr "") in
         Returns (if truthy wd then [field "Details" wd false] else []))%py
   else Returns []) = Returns l ->
  l = match weather_detail weather_data with
      | Some v => [field "Details" v false]
      | None => []
      end.
Proof.
  intros Ef0 Ef Ed E.
  destruct weather_data as [| | | | | |d]; try discriminate Ef0.
  cbn [get] in Ef0. apply Returns_inj in Ef0. subst fs.
  destruct fc as [| | | | | |today]; try discriminate Ed.
  cbn [get] in Ed. apply Returns_inj in Ed. subst dt.
  assert (Hd : forall x : option value,
             (if truthy (match x with Some v => v | None => VDict [] end)
              then (let* wd := get (match x with Some v => v | None => VDict [] end)
                                   "weatherDetail" (VStr "") in
                    Returns (if truthy wd then [field "Details" wd false] else []))%py
              else Returns []) = Returns l ->
             l = match match x with
                       | Some (VDict detail) =>
                           match lookup "weatherDetail" detail with
                           | Some v => if truthy v then Some v else None
                           | None => None
                           end
                       | _ => None
                       end with
                 | Some v => [field "Details" v false]
                 | None => []
                 end).
  { clear. intros [x|] H.
    - destruct x as [| | | | | |detail].
      1-6: match type of H with
           | (if ?b then _ else _) = _ => destruct b
           end; cbn [get rbind] in H; try discriminate H;
           apply Returns_inj in H; symmetry; exact H.
      destruct detail as [|kv detail]; cbn [truthy negb] in H.
      + apply Returns_inj in H. symmetry. exact H.
      + cbn [get rbind] in H.
        destruct (lookup "weatherDetail" (kv :: detail)) as [v|].
        * destruct (truthy v); apply Returns_inj in H; symmetry; exact H.
        * cbn [truthy] in H. apply Returns_inj in H. symmetry. exact H.
    - cbn [truthy negb] in H. apply Returns_inj in H. symmetry. exact H. }
  unfold weather_detail.
  destruct (lookup "forecasts" d) as [fs|].
  - destruct fs as [| | | |s|fl|fd]; cbn [first] in Ef; try discriminate Ef.
    + destruct (chars_of s); [discriminate Ef|].
      apply Returns_inj in Ef. discriminate Ef.
    + destruct fl as [|x fl]; [discriminate Ef|].
      apply Returns_inj in Ef. subst x. apply Hd. exact E.
  - cbn [first] in Ef. apply Returns_inj in Ef. injection Ef as <-.
    cbn [lookup truthy negb] in E. apply Returns_inj in E. symmetry. exact E.
Qed.

(** X13: an embed that [build_discord_embed] returns is empty exactly when
    the weather data is empty (false); otherwise it has the seven keys
    title, url, description, color, fields, thumbnail and footer, in this
    order, its colour is the decimal of the lamp's [rgb] entry, orange
    (255,127,0) if there is none, and it has six fields, followed by a
    seventh, named Details and not inline, exactly when
    [forecasts[0].detail.weatherDetail] is there and true, whose text it
    then carries. *)
Theorem build_discord_embed_structure
  (repr : value -> string) (cfg : config)
  (weather_data : value) (lamp : lamp_setting) (embed : value) :
  build_discord_embed repr cfg weather_data lamp = Returns embed ->
  (truthy weather_data = false /\ embed = VDict [])
  \/ (truthy weather_data = true
      /\ exists (e : dict) (fields : list value),
           embed = VDict e
           /\ map fst e = ["title"; "url"; "description"; "color"; "fields";
                           "thumbnail"; "footer"]
           /\ lookup "color" e
              = Some (VInt (rgb_to_decimal
                              (match rgb lamp with
                               | Some c => c
                               | None => (255, 127, 0)
                               end)))
           /\ lookup "fields" e = Some (VList fields)
           /\ (List.length fields = 6%nat \/ List.length fields = 7%nat)
           /\ (exists base,
                 List.length base = 6%nat
                 /\ fields = (base ++ match weather_detail weather_data with
                                      | Some v => [field "Details" v false]
                                      | None => []
                                      end)%list)
           /\ (List.length fields = 7%nat <-> weather_detail weather_data <> None)).
Proof.
  intros Hb. unfold build_discord_embed in Hb.
  destruct (truthy weather_data); cbn [negb] in Hb.
  - right. split; [reflexivity|].
    repeat step_result Hb.
    apply Returns_inj in Hb. subst embed.
    match goal with
    | E : _ = Returns ?l |- _ =>
        match type of E with
        | context [field "Details"] =>
            assert (D : l = match weather_detail weather_data with
                            | Some v => [field "Details" v false]
                            | None => []
                            end)
              by (eapply details_of_forecast; eassumption);
            clear E
        end
    end.
    eexists _, _. split; [reflexivity|].
    split; [reflexivity|]. split; [reflexivity|]. split; [reflexivity|].
    rewrite D. split; [|split].
    + destruct (weather_detail weather_data); [right|left]; reflexivity.
    + eexists [_; _; _; _; _; _]. split; reflexivity.
    + destruct (weather_detail weather_data) as [v|].
      * split; [intros _; discriminate | intros _; reflexivity].
      * split; [intros H; discriminate H | intros H; exfalso; apply H; reflexivity].
  - left. apply Returns_inj in Hb. subst embed. split; reflexivity.
Qed.

Lemma build_discord_embed_structure_witness :
  exists embed fields,
    build_discord_embed sample_repr sample_config detailed_forecast sample_lamp
    = Returns embed
    /\ truthy detailed_forecast = true
    /\ weather_detail detailed_forecast = Some (VStr "Cloudy, rain later")
    /\ (exists e, embed = VDict e /\ lookup "color" e = Some (VInt 16744192)
                  /\ lookup "fields" e = Some (VList fields))
    /\ List.length fields = 7%nat
    /\ nth_error fields 6 = Some (field "Details" (VStr "Cloudy, rain later") false).
Proof.
  destruct (build_discord_embed sample_repr sample_config detailed_forecast sample_lamp)
    as [embed|x] eqn:E; [|vm_compute in E; discriminate E].
  destruct (build_discord_embed_structure sample_repr sample_config detailed_forecast
              sample_lamp embed E)
    as [[H _]|[_ (e & fields & He & _ & Hc & Hf & _ & (base & Hl & Hb) & H7)]].
  - discriminate H.
  - exists embed, fields. split; [reflexivity|]. split; [reflexivity|].
    split; [reflexivity|].
    split; [exists e; split; [exact He | split; [exact Hc | exact Hf]]|].
    split.
    + apply H7. discriminate.
    + rewrite Hb. rewrite nth_error_app2 by (rewrite Hl; apply le_n).
      rewrite Hl. reflexivity.
Defined.


(** ** The notifier, continued *)

(** X14: with notifications enabled, [send_discord_notification] returns
    true only after one request has gone out: a webhook URL is configured,
    the embed was built and is not empty, the payload [{"embeds": [embed]}]
    was posted to the webhook URL with the configured timeout, and the
    reply did not carry a 4xx or 5xx status; the URL is then one that
    [requests] can use and the timeout is positive. *)
Theorem send_discord_notification_true
  (repr : value -> string) (cfg : config) (usable_url : string -> bool)
  (weather_data : value) (lamp : lamp_setting) (w : world) :
  DISCORD_ENABLED cfg = true ->
  fst (send_discord_notification repr cfg usable_url weather_data lamp w) = Returns true ->
  DISCORD_WEBHOOK_URL cfg <> ""
  /\ exists embed status body rest,
       build_discord_embed repr cfg weather_data lamp = Returns embed
       /\ truthy embed = true
       /\ replies w = Reply status body :: rest
       /\ ~ (400 <= status < 600)
       /\ sent (snd (send_discord_notification repr cfg usable_url weather_data lamp w))
          = (sent w ++ [POST (DISCORD_WEBHOOK_URL cfg)
                          (VDict [("embeds", VList [embed])])
                          (DISCORD_TIMEOUT cfg)])%list
       /\ usable_url (DISCORD_WEBHOOK_URL cfg) = true
       /\ 0 < DISCORD_TIMEOUT cfg.
Proof.
  intros He. unfold send_discord_notification. rewrite He. cbn [negb].
  destruct (String.eqb_spec (DISCORD_WEBHOOK_URL cfg) "") as [Hu|Hu];
    [intros H; discriminate H|].
  unfold bind, lift.
  destruct (build_discord_embed repr cfg weather_data lamp) as [embed|e];
    [|intros H; discriminate H].
  destruct (truthy embed) eqn:Ht; cbn [negb]; [|intros H; discriminate H].
  unfold attempt, requests_post_json.
  destruct (usable_url _); cbn [negb]; [|intros H; discriminate H].
  destruct (serialisable _); cbn [negb]; [|intros H; discriminate H].
  destruct (Z.leb_spec (DISCORD_TIMEOUT cfg) 0) as [Hto|Hto];
    [intros H; discriminate H|].
  unfold exchange.
  destruct (replies w) as [|[|status body] rest];
    try (intros H; discriminate H).
  unfold raise_for_status. cbn [fst].
  destruct ((400 <=? status) && (status <? 600)) eqn:Hs;
    [intros H; discriminate H|].
  intros _. split; [exact Hu|].
  exists embed, status, body, rest.
  repeat split; try reflexivity; try exact Ht; try exact Hto.
  intros H. rewrite (error_status_true status H) in Hs. discriminate Hs.
Qed.

Lemma send_discord_notification_true_witness :
  DISCORD_ENABLED sample_config = true
  /\ fst (send_discord_notification sample_repr sample_config sample_usable sample_forecast
            sample_lamp (World [Reply 204 None] [] []))
     = Returns true
  /\ DISCORD_WEBHOOK_URL sample_config <> "".
Proof.
  assert (H : fst (send_discord_notification sample_repr sample_config sample_usable
                     sample_forecast sample_lamp (World [Reply 204 None] [] []))
              = Returns true) by (vm_compute; reflexivity).
  split; [reflexivity|]. split; [exact H|].
  exact (proj1 (send_discord_notification_true sample_repr sample_config sample_usable
                  sample_forecast sample_lamp (World [Reply 204 None] [] [])
                  eq_refl H)).
Defined.

(** X15: the notifier builds the embed outside its [try] block: with
    notifications enabled and a webhook URL configured, an exception of
    [build_discord_embed] (AttributeError for a forecast whose [location]
    is null, say) leaves [send_discord_notification] as it is, and nothing
    is sent. *)
Theorem send_discord_notification_builder_raises
  (repr : value -> string) (cfg : config) (usable_url : string -> bool)
  (weather_data : value) (lamp : lamp_setting) (w : world) (e : exn) :
  DISCORD_ENABLED cfg = true ->
  DISCORD_WEBHOOK_URL cfg <> "" ->
  build_discord_embed repr cfg weather_data lamp = Raises e ->
  fst (send_discord_notification repr cfg usable_url weather_data lamp w) = Raises e
  /\ sent (snd (send_discord_notification repr cfg usable_url weather_data lamp w)) = sent w.
Proof.
  intros He Hu Hb. unfold send_discord_notification. rewrite He. cbn [negb].
  destruct (String.eqb_spec (DISCORD_WEBHOOK_URL cfg) ""); [contradiction|].
  unfold bind, lift. rewrite Hb. split; reflexivity.
Qed.

Lemma send_discord_notification_builder_raises_witness :
  build_discord_embed sample_repr sample_config null_location sample_lamp
    = Raises AttributeError
  /\ fst (send_discord_notification sample_repr sample_config sample_usable null_location
            sample_lamp (World [Reply 204 None] [] []))
     = Raises AttributeError.
Proof.
  assert (H : build_discord_embed sample_repr sample_config null_location sample_lamp
              = Raises AttributeError) by (vm_compute; reflexivity).
  split; [exact H|].
  refine (proj1 (send_discord_notification_builder_raises sample_repr sample_config sample_usable
                   null_location sample_lamp (World [Reply 204 None] [] [])
                   AttributeError eq_refl _ H)).
  discriminate.
Defined.


(** ** The orchestrator, continued *)

Lemma bind_returns (A B : Type) (m : M A) (k : A -> M B) (w : world) (b : B) :
  fst (bind m k w) = Returns b ->
  exists a w', m w = (Returns a, w') /\ fst (k a w') = Returns b.
Proof.
  unfold bind. destruct (m w) as [[a|e] w']; intros H.
  - exists a, w'. split; [reflexivity | exact H].
  - discriminate H.
Qed.

(** X16: [main] has one result only: whenever it returns, it returns
    true, whether the fetch, the device commands or the notification
    failed or not. *)
Theorem main_returns_only_true
  (repr : value -> string) (cfg : config) (usable_url : string -> bool) (w : world) (b : bool) :
  fst (main repr cfg usable_url w) = Returns b -> b = true.
Proof.
  unfold main. intros H.
  apply bind_returns in H. destruct H as ([rain weather_data] & w0 & _ & H).
  apply bind_returns in H. destruct H as (u & w1 & _ & H).
  apply bind_returns in H. destruct H as (lamp & w2 & _ & H).
  apply bind_returns in H. destruct H as (ok & w3 & _ & H).
  unfold ret in H. cbn [fst] in H. apply Returns_inj in H. congruence.
Qed.

Lemma main_returns_only_true_witness :
  fst (main sample_repr sample_config sample_usable sample_world) = Returns true.
Proof.
  destruct (fst (main sample_repr sample_config sample_usable sample_world)) as [b|e] eqn:E.
  - rewrite (main_returns_only_true sample_repr sample_config sample_usable sample_world b E).
    reflexivity.
  - vm_compute in E. discriminate E.
Defined.

Lemma notifier_without_forecast
  (repr : value -> string) (cfg : config) (usable_url : string -> bool) (lamp : lamp_setting) (w : world) :
  exists b,
    fst (send_discord_notification repr cfg usable_url (VDict []) lamp w) = Returns b
    /\ sent (snd (send_discord_notification repr cfg usable_url (VDict []) lamp w)) = sent w.
Proof.
  unfold send_discord_notification.
  destruct (DISCORD_ENABLED cfg); cbn [negb]; [|eexists; split; reflexivity].
  destruct (String.eqb (DISCORD_WEBHOOK_URL cfg) ""); eexists; split; reflexivity.
Qed.

(** X17: a run in which the forecast fetch fails.  If the three replies
    that follow are ones [post_command] reports, [main] returns true and
    sends exactly four requests: the forecast GET, setBrightness 100, the
    colour of a level of 0 (setColor 255:127:0, or setColorTemperature
    2700 in colour-temperature mode) and turnOn; no notification is sent,
    whatever the Discord settings. *)
Theorem main_when_fetch_fails
  (repr : value -> string) (cfg : config) (usable_url : string -> bool) (w : world) :
  fetch_fails w ->
  forallb reported (firstn 3 (tl (replies w))) = true ->
  fst (main repr cfg usable_url w) = Returns true
  /\ sent (snd (main repr cfg usable_url w))
     = (sent w ++
        [GET (WEATHER_URL ++ "/" ++ CITY_CODE cfg) 10;
         command_request (DEVICE_ID cfg) "setBrightness" "100";
         (if USE_COLOR_TEMPERATURE cfg
          then command_request (DEVICE_ID cfg) "setColorTemperature" "2700"
          else command_request (DEVICE_ID cfg) "setColor" "255:127:0");
         command_request (DEVICE_ID cfg) "turnOn" "default"])%list.
Proof.
  intros Hf Hr.
  enough (Hrun : exists w',
             main repr cfg usable_url w = (Returns true, w')
             /\ sent w'
                = (sent w ++
                   [GET (WEATHER_URL ++ "/" ++ CITY_CODE cfg) 10;
                    command_request (DEVICE_ID cfg) "setBrightness" "100";
                    (if USE_COLOR_TEMPERATURE cfg
                     then command_request (DEVICE_ID cfg) "setColorTemperature" "2700"
                     else command_request (DEVICE_ID cfg) "setColor" "255:127:0");
                    command_request (DEVICE_ID cfg) "turnOn" "default"])%list).
  { destruct Hrun as (w' & -> & Hs). split; [reflexivity | exact Hs]. }
  unfold main. unfold bind at 1.
  pose proof (get_today_failed (CITY_CODE cfg) w Hf) as E0.
  destruct (get_today_one_request (CITY_CODE cfg) w) as [S0 R0].
  destruct (get_today_rain_percent_max_all (CITY_CODE cfg) w) as [r0 w0].
  cbn [fst snd] in E0, S0, R0. subst r0.
  unfold bind at 1. unfold logger at 1. cbn [replies sent log].
  assert (Ect : map_rain_to_ct 0 = Returns 2700) by (vm_compute; reflexivity).
  destruct (USE_COLOR_TEMPERATURE cfg).
  - unfold bind at 1. unfold bind at 1. unfold lift. rewrite Ect.
    unfold bind at 1. unfold logger at 1. cbn [replies sent log max_rain rgb ct].
    unfold bind at 1.
    match goal with
    | |- context [set_lamp_ct ?d ?k ?b ?x] =>
        assert (H3 : forallb reported (firstn 3 (replies x)) = true)
          by (cbn [replies]; rewrite R0; exact Hr);
        destruct (three_commands d "setBrightness" (str_of_int (clamp_brightness b))
                    "setColorTemperature" (str_of_int (Z.max 2700 (Z.min 6500 k)))
                    "turnOn" "default" x H3) as [F1 S1];
        change ((post_command d "setBrightness" (str_of_int (clamp_brightness b))
                   "command" ;;
                 post_command d "setColorTemperature"
                   (str_of_int (Z.max 2700 (Z.min 6500 k))) "command" ;;
                 post_command d "turnOn" "default" "command" ;; ret tt) x)
          with (set_lamp_ct d k b x) in F1, S1;
        destruct (set_lamp_ct d k b x) as [[[]|e] w1]; [|discriminate F1]
    end.
    cbn [fst snd sent] in S1. unfold ret at 1. unfold bind.
    match goal with
    | |- context [send_discord_notification repr cfg usable_url ?x ?l ?y] =>
        destruct (notifier_without_forecast repr cfg usable_url l y) as (ok & F2 & S2);
        destruct (send_discord_notification repr cfg usable_url x l y) as [r2 w2]
    end.
    cbn [fst snd] in F2, S2. subst r2. cbn [fst snd ret].
    exists w2. split; [reflexivity|]. rewrite S2, S1, S0, <- app_assoc. reflexivity.
  - unfold bind at 1. unfold bind at 1. unfold logger at 1.
    cbn [replies sent log max_rain rgb ct]. unfold bind at 1.
    match goal with
    | |- context [set_lamp_rgb ?d ?c ?b ?x] =>
        assert (H3 : forallb reported (firstn 3 (replies x)) = true)
          by (cbn [replies]; rewrite R0; exact Hr);
        destruct (three_commands d "setBrightness" (str_of_int (clamp_brightness b))
                    "setColor" "255:127:0" "turnOn" "default" x H3) as [F1 S1];
        change ((post_command d "setBrightness" (str_of_int (clamp_brightness b))
                   "command" ;;
                 post_command d "setColor" "255:127:0" "command" ;;
                 post_command d "turnOn" "default" "command" ;; ret tt) x)
          with (set_lamp_rgb d (map_rain_to_rgb 0) b x) in F1, S1;
        destruct (set_lamp_rgb d c b x) as [[[]|e] w1]; [|discriminate F1]
    end.
    cbn [fst snd sent] in S1. unfold ret at 1. unfold bind.
    match goal with
    | |- context [send_discord_notification repr cfg usable_url ?x ?l ?y] =>
        destruct (notifier_without_forecast repr cfg usable_url l y) as (ok & F2 & S2);
        destruct (send_discord_notification repr cfg usable_url x l y) as [r2 w2]
    end.
    cbn [fst snd] in F2, S2. subst r2. cbn [fst snd ret].
    exists w2. split; [reflexivity|]. rewrite S2, S1, S0, <- app_assoc. reflexivity.
Qed.

Lemma main_when_fetch_fails_witness :
  fst (main sample_repr sample_config sample_usable (World (NoReply :: failing_replies) [] []))
    = Returns true.
Proof.
  refine (proj1 (main_when_fetch_fails sample_repr sample_config sample_usable
                   (World (NoReply :: failing_replies) [] []) _ _)).
  - exact I.
  - reflexivity.
Defined.


Lemma build_discord_embed_colour
  (repr : value -> string) (cfg : config)
  (weather_data : value) (lamp : lamp_setting) (c : Z * Z * Z) (embed : value) :
  rgb lamp = Some c ->
  build_discord_embed repr cfg weather_data lamp = Returns embed ->
  truthy embed = true ->
  exists e : dict,
    embed = VDict e /\ lookup "color" e = Some (VInt (rgb_to_decimal c)).
Proof.
  intros Hrgb Hb Ht. unfold build_discord_embed in Hb.
  destruct (negb (truthy weather_data)).
  - apply Returns_inj in Hb. subst embed. discriminate Ht.
  - rewrite Hrgb in Hb.
    repeat step_result Hb.
    apply Returns_inj in Hb. subst embed. eexists. split; reflexivity.
Qed.

Lemma sent_notification_colour
  (repr : value -> string) (cfg : config) (usable_url : string -> bool)
  (weather_data : value) (lamp : lamp_setting) (c : Z * Z * Z) (w : world) :
  rgb lamp = Some c ->
  exists post,
    sent (snd (send_discord_notification repr cfg usable_url weather_data lamp w))
    = (sent w ++ post)%list
    /\ Forall (coloured_if_notification c) post.
Proof.
  intros Hrgb. unfold send_discord_notification.
  destruct (DISCORD_ENABLED cfg); cbn [negb].
  2:{ exists []. rewrite app_nil_r. split; [reflexivity | constructor]. }
  destruct (String.eqb (DISCORD_WEBHOOK_URL cfg) "").
  { exists []. rewrite app_nil_r. split; [reflexivity | constructor]. }
  unfold bind, lift.
  destruct (build_discord_embed repr cfg weather_data lamp) as [embed|e] eqn:Hb.
  2:{ exists []. rewrite app_nil_r. split; [reflexivity | constructor]. }
  destruct (truthy embed) eqn:Ht; cbn [negb].
  2:{ exists []. rewrite app_nil_r. split; [reflexivity | constructor]. }
  destruct (build_discord_embed_colour repr cfg weather_data lamp c embed Hrgb Hb Ht)
    as (e & -> & Hc).
  unfold attempt, requests_post_json.
  destruct (usable_url _); cbn [negb].
  2:{ exists []. rewrite app_nil_r. split; [reflexivity | constructor]. }
  destruct (serialisable _); cbn [negb].
  2:{ exists []. rewrite app_nil_r. split; [reflexivity | constructor]. }
  destruct (DISCORD_TIMEOUT cfg <=? 0).
  1:{ exists []. rewrite app_nil_r. split; [reflexivity | constructor]. }
  unfold exchange.
  eexists [_]. split.
  - destruct (replies w) as [|[|status body] rest]; try reflexivity.
    unfold raise_for_status. cbn [fst].
    destruct ((400 <=? status) && (status <? 600)); reflexivity.
  - constructor; [|constructor].
    intros url embed t H. injection H as _ <- _. eauto.
Qed.

Lemma command_request_plain (c : Z * Z * Z) (device_id command parameter : string) :
  coloured_if_notification c (command_request device_id command parameter).
Proof.
  unfold coloured_if_notification, command_request. intros url embed t H.
  discriminate H.
Qed.

Lemma set_lamp_rgb_trace
  (device_id : string) (r g b : Z) (brightness : value) (w : world) :
  exists cmds,
    sent (snd (set_lamp_rgb device_id (r, g, b) brightness w)) = (sent w ++ cmds)%list
    /\ Forall (fun q => exists c p, q = command_request device_id c p) cmds
    /\ (forall u,
          fst (set_lamp_rgb device_id (r, g, b) brightness w) = Returns u ->
          In (command_request device_id "setColor"
                (colour_parameter (clamp 0 255 r, clamp 0 255 g, clamp 0 255 b)))
             cmds).
Proof.
  unfold set_lamp_rgb, bind, colour_parameter, clamp.
  pose proof (sent_post_command device_id "setBrightness"
                (str_of_int (clamp_brightness brightness)) w) as S1.
  destruct (post_command device_id "setBrightness" _ "command" w) as [[r1|e1] w1].
  2:{ eexists. split; [exact S1|]. split.
      - repeat constructor. eexists _, _. reflexivity.
      - intros u H. discriminate H. }
  match goal with
  | |- context [post_command device_id "setColor" ?p "command" w1] =>
      pose proof (sent_post_command device_id "setColor" p w1) as S2;
      destruct (post_command device_id "setColor" p "command" w1) as [[r2|e2] w2]
  end.
  2:{ cbn [snd] in *. rewrite S2, S1, <- app_assoc. eexists. split; [reflexivity|].
      split.
      - repeat constructor; eexists _, _; reflexivity.
      - intros u H. discriminate H. }
  pose proof (sent_post_command device_id "turnOn" "default" w2) as S3.
  destruct (post_command device_id "turnOn" "default" "command" w2) as [[r3|e3] w3];
    cbn [snd ret] in *; rewrite S3, S2, S1, <- !app_assoc;
    eexists; (split; [reflexivity|]); (split;
      [repeat constructor; eexists _, _; reflexivity
      |intros u H; right; left; reflexivity]).
Qed.

Lemma commands_plain (c : Z * Z * Z) (device_id : string) (cmds : list request) :
  Forall (fun q => exists k p, q = command_request device_id k p) cmds ->
  Forall (coloured_if_notification c) cmds
  /\ forall q u e x,
       In q cmds -> q <> POST u (VDict [("embeds", VList [e])]) x.
Proof.
  intros F. rewrite Forall_forall in F. split.
  - apply Forall_forall. intros q Hin. destruct (F q Hin) as (k & p & ->).
    apply command_request_plain.
  - intros q u e x Hin H. destruct (F q Hin) as (k & p & ->).
    unfold command_request in H. discriminate H.
Qed.

Lemma map_rain_to_rgb_clamped (level : Z) :
  (let '(r, g, b) := map_rain_to_rgb level in
   (clamp 0 255 r, clamp 0 255 g, clamp 0 255 b)) = map_rain_to_rgb level.
Proof.
  unfold map_rain_to_rgb.
  repeat match goal with
         | |- context [if ?x then _ else _] => destruct x
         end; reflexivity.
Qed.

(** X18: in RGB mode the swatch of the notification is the colour of the
    lamp: whenever [main] sends a notification, the colour of its embed is
    the decimal of [map_rain_to_rgb level] for a level whose setColor
    command, with that same colour as "R:G:B", was sent to the lamp in the
    same run. *)
Theorem rgb_mode_embed_matches_lamp
  (repr : value -> string) (cfg : config) (usable_url : string -> bool) (w : world)
  (url : string) (embed : value) (t : Z) :
  USE_COLOR_TEMPERATURE cfg = false ->
  In (POST url (VDict [("embeds", VList [embed])]) t) (sent (snd (main repr cfg usable_url w))) ->
  In (POST url (VDict [("embeds", VList [embed])]) t) (sent w)
  \/ exists (level : Z) (e : dict),
       embed = VDict e
       /\ lookup "color" e = Some (VInt (rgb_to_decimal (map_rain_to_rgb level)))
       /\ In (command_request (DEVICE_ID cfg) "setColor"
                (colour_parameter (map_rain_to_rgb level)))
             (sent (snd (main repr cfg usable_url w))).
Proof.
  intros Hct.
  enough (Hrun : exists level new,
             sent (snd (main repr cfg usable_url w)) = (sent w ++ new)%list
             /\ Forall (coloured_if_notification (map_rain_to_rgb level)) new
             /\ ((exists q, In q new /\ exists u e x, q = POST u (VDict [("embeds", VList [e])]) x) ->
                 In (command_request (DEVICE_ID cfg) "setColor"
                       (colour_parameter (map_rain_to_rgb level))) new)).
  { destruct Hrun as (level & new & S & F & C). rewrite S. intros Hin.
    apply in_app_or in Hin. destruct Hin as [Hin|Hin]; [left; exact Hin|].
    right. rewrite Forall_forall in F.
    destruct (F _ Hin url embed t eq_refl) as (e & He & Hc).
    exists level, e. split; [exact He|]. split; [exact Hc|].
    apply in_or_app. right. apply C. eexists. split; [exact Hin|].
    eexists _, _, _. reflexivity. }
  unfold main. rewrite Hct. unfold bind at 1.
  pose proof (sent_get_today (CITY_CODE cfg) w) as S0.
  assert (G : forall c, coloured_if_notification c
                (GET (WEATHER_URL ++ "/" ++ CITY_CODE cfg) HTTP_TIMEOUT))
    by (intros c u e x H; discriminate H).
  assert (NG : forall u e x,
             GET (WEATHER_URL ++ "/" ++ CITY_CODE cfg) HTTP_TIMEOUT
             <> POST u (VDict [("embeds", VList [e])]) x)
    by (intros u e x H; discriminate H).
  destruct (get_today_rain_percent_max_all (CITY_CODE cfg) w)
    as [[[rain weather_data]|e] w0]; cbn [snd] in S0.
  2:{ exists 0, [GET (WEATHER_URL ++ "/" ++ CITY_CODE cfg) HTTP_TIMEOUT].
      split; [exact S0|]. split; [repeat constructor; apply G|].
      intros (q & [<-|[]] & u & e' & x & H). exfalso. exact (NG _ _ _ H). }
  exists rain.
  unfold bind, logger, lift. cbn [replies sent log rgb max_rain ct].
  pose proof (map_rain_to_rgb_clamped rain) as Hcl.
  destruct (map_rain_to_rgb rain) as [[r g] b] eqn:Hcol.
  match goal with
  | |- context [set_lamp_rgb ?d (r, g, b) ?br ?x] =>
      destruct (set_lamp_rgb_trace d r g b br x) as (cmds & S1 & F1 & C1);
      destruct (set_lamp_rgb d (r, g, b) br x) as [[[]|e] w1]
  end; cbn [snd sent fst] in S1, C1;
    destruct (commands_plain (r, g, b) _ cmds F1) as [P1 N1].
  2:{ cbn [snd]. rewrite S1, S0, <- app_assoc. eexists. split; [reflexivity|].
      split; [constructor; [apply G | exact P1]|].
      intros (q & [<-|Hin] & u & e' & x & H); exfalso.
      - exact (NG _ _ _ H).
      - exact (N1 q u e' x Hin H). }
  cbn [ret].
  match goal with
  | |- context [send_discord_notification repr cfg usable_url ?x ?l ?y] =>
      destruct (sent_notification_colour repr cfg usable_url x l (r, g, b) y eq_refl)
        as (post & S2 & F2);
      destruct (send_discord_notification repr cfg usable_url x l y) as [[ok|e] w2]
  end; cbn [snd ret] in *; rewrite S2, S1, S0, <- !app_assoc;
    eexists; (split; [reflexivity|]);
    (split; [constructor; [apply G | apply Forall_app; split; assumption]|]);
    intros _; cbn [app]; right; apply in_or_app; left;
    rewrite <- Hcl; apply (C1 tt); reflexivity.
Qed.

Lemma rgb_mode_embed_matches_lamp_witness :
  USE_COLOR_TEMPERATURE sample_rgb_config = false
  /\ exists url embed t level e,
       In (POST url (VDict [("embeds", VList [embed])]) t)
          (sent (snd (main sample_repr sample_rgb_config sample_usable sample_world)))
       /\ embed = VDict e
       /\ lookup "color" e
          = Some (VInt (rgb_to_decimal (map_rain_to_rgb level))).
Proof.
  split; [reflexivity|].
  assert (Hin : exists url embed t,
             In (POST url (VDict [("embeds", VList [embed])]) t)
                (sent (snd (main sample_repr sample_rgb_config sample_usable sample_world)))).
  { eexists _, _, _. vm_compute. do 4 right. left. reflexivity. }
  destruct Hin as (url & embed & t & Hin).
  destruct (rgb_mode_embed_matches_lamp sample_repr sample_rgb_config sample_usable sample_world
              url embed t eq_refl Hin) as [[]|(level & e & He & Hc & _)].
  exists url, embed, t, level, e.
  split; [exact Hin | split; [exact He | exact Hc]].
Defined.
